(** * Dashboard.py: retry-wrapped fetch, LRU memoization and chart builders

    A shallow embedding of [src/Dashboard.py].  The program is a Dash page
    over two third-party calls ([yf.download] and [yf.Ticker(..).info]);
    both are modelled as oracles of a [Provider].  The two decorators the
    program applies, [tenacity.retry] and [functools.lru_cache], are
    modelled by their library semantics with the parameters written in the
    source.  Python code with effects becomes a state-and-exception monad
    over a [World] that records the cache, every download issued and every
    second slept. *)

From Stdlib Require Import ZArith List String Ascii Bool Lia Floats.
From Stdlib Require DecimalString.
Import ListNotations.

Local Open Scope string_scope.
Local Open Scope list_scope.
Local Open Scope Z_scope.

(** ** Exceptions

    Values of Python's class [Exception].  [RetryError] is tenacity's
    wrapper around the last failed attempt; [ProviderError] stands for the
    opaque failures of the market-data provider (time-outs, rate limits,
    malformed replies); [OutOfBoundsDatetime] and [OutOfBoundsTimedelta]
    are the two errors, both of class [ValueError], that pandas raises
    when a nanosecond value does not fit its 64 bits. *)

Inductive exn : Type :=
| ValueError (msg : string)
| TypeError (msg : string)
| KeyError (key : string)
| IndexError (msg : string)
| OverflowError (msg : string)
| ProviderError (msg : string)
| RetryError (last_attempt : exn)
| OutOfBoundsDatetime
| OutOfBoundsTimedelta.

Inductive result (A : Type) : Type :=
| Ok (a : A)
| Raise (e : exn).

Arguments Ok {A} a.
Arguments Raise {A} e.

(** ** Data model *)

(** A pandas [Timestamp]: nanoseconds since the epoch in a signed 64-bit
    integer, between [Timestamp_min] (1677-09-21) and [Timestamp_max]
    (2262-04-11); the least 64-bit value is taken by NaT. *)
Definition Timestamp := Z.

Definition int64_max : Z := 9223372036854775807.

Definition Timestamp_min : Z := - int64_max.

Definition Timestamp_max : Z := int64_max.

Definition nanoseconds_per_day : Z := 86400000000000.

(** [datetime.timedelta(days=i)], as its number of days: the constructor
    refuses more than 999999999 days either way. *)
Definition timedelta_days (i : Z) : result Z :=
  if Z.abs i <=? 999999999 then Ok i
  else Raise (OverflowError "days; must have magnitude <= 999999999").

(** [t + td] for a [Timestamp] and a [datetime.timedelta] of [days] days.
    pandas turns the timedelta into nanoseconds, which must fit 64 bits,
    and the sum must be a [Timestamp] again. *)
Definition Timestamp_add (t : Timestamp) (days : Z) : result Timestamp :=
  let nanos := days * nanoseconds_per_day in
  if Z.abs nanos <=? int64_max
  then if (Timestamp_min <=? t + nanos) && (t + nanos <=? Timestamp_max)
       then Ok (t + nanos)
       else Raise OutOfBoundsDatetime
  else Raise OutOfBoundsTimedelta.

(** A list comprehension whose element expression can raise: the elements
    are computed in order and the first exception ends it. *)
Fixpoint comprehension {A B : Type} (f : A -> result B) (l : list A) : result (list B) :=
  match l with
  | [] => Ok []
  | x :: rest =>
      match f x with
      | Ok y =>
          match comprehension f rest with
          | Ok ys => Ok (y :: ys)
          | Raise e => Raise e
          end
      | Raise e => Raise e
      end
  end.

(** One row of the frame [yf.download] returns, with its index value. *)
Record Bar : Type := mkBar {
  Date : Timestamp;
  Open : float;
  High : float;
  Low : float;
  Close : float;
  Volume : float
}.

(** The frame [yf.download] returns: the name of its index, which
    [reset_index] turns into a column name ('Date' for daily bars,
    'Datetime' for intraday ones, none on a frame built without one), and
    its rows in ascending order of time. *)
Record DataFrame : Type := mkFrame {
  index_name : option string;
  rows : list Bar
}.

(** The arguments of [fetch_data]: symbol, period, interval. *)
Definition Query := (string * string * string)%type.

(** The dict behind [yf.Ticker(symbol).info]. *)
Definition Info := list (string * float).

(** A call of a decorated function: positional and keyword arguments, in
    the order they are written at the call site. *)
Record Call : Type := mkCall {
  args : list string;
  kwds : list (string * string)
}.

(** The items of an [lru_cache] key: an argument value or keyword name, or
    the marker [functools] puts between positional and keyword parts. *)
Inductive KeyItem : Type :=
| KVal (v : string)
| KwdMark.

Definition CacheKey := list KeyItem.

(** ** The world *)

Record World : Type := mkWorld {
  cache : list (CacheKey * DataFrame);   (* most recently used first *)
  downloads : list Query;                (* every [yf.download], oldest first *)
  sleeps : list Z;                       (* every [time.sleep], oldest first *)
  info_calls : list string               (* every [.info] lookup, oldest first *)
}.

Definition init_world : World := mkWorld [] [] [] [].

Definition set_cache (w : World) (c : list (CacheKey * DataFrame)) : World :=
  mkWorld c (downloads w) (sleeps w) (info_calls w).

(** The market-data provider.  An answer may depend on how many requests
    were made before, so that a provider can fail and then recover. *)
Record Provider : Type := mkProvider {
  yf_download : nat -> Query -> result DataFrame;
  yf_ticker_info : nat -> string -> result Info
}.

(** ** The monad of the embedding *)

Definition M (A : Type) : Type := World -> result A * World.

Definition ret {A : Type} (a : A) : M A := fun w => (Ok a, w).

Definition bind {A B : Type} (m : M A) (k : A -> M B) : M B :=
  fun w =>
    match m w with
    | (Ok a, w1) => k a w1
    | (Raise e, w1) => (Raise e, w1)
    end.

Definition lift {A : Type} (r : result A) : M A := fun w => (r, w).

(** [try: body / except Exception as e: handler e]. *)
Definition try_except {A : Type} (body : M A) (handler : exn -> M A) : M A :=
  fun w =>
    match body w with
    | (Ok a, w1) => (Ok a, w1)
    | (Raise e, w1) => handler e w1
    end.

Declare Scope py_scope.
Delimit Scope py_scope with py.
Notation "x <- m ;; k" := (bind m (fun x => k))
  (at level 61, m at next level, right associativity) : py_scope.
Local Open Scope py_scope.

Definition time_sleep (seconds : Z) : M unit :=
  fun w => (Ok tt, mkWorld (cache w) (downloads w) (sleeps w ++ [seconds]) (info_calls w)).

(** ** tenacity *)

(** [wait_exponential(multiplier, min, max)] after the failed attempt
    [attempt_number], as tenacity 8 computes it:
    [max(max(0, min), min(multiplier * 2 ** (attempt_number - 1), max))].
    With the arguments of the source every quantity is an [int]. *)
Definition wait_exponential (multiplier min max : Z) (attempt_number : Z) : Z :=
  Z.max (Z.max 0 min) (Z.min (multiplier * 2 ^ (attempt_number - 1)) max).

(** The loop of [@retry(wait=.., stop=stop_after_attempt(n))], entered at
    attempt [attempt_number] with [attempts_left] further attempts allowed
    after it.  A result is returned as it is.  After an exception the stop
    condition is looked at first: when no attempt is left the loop raises
    [RetryError] around the exception (the decorator's default,
    [reraise=False]); otherwise it sleeps for [wait attempt_number] and
    calls again. *)
Fixpoint retrying {A : Type} (wait : Z -> Z) (attempts_left : nat)
    (attempt_number : Z) (fn : M A) : M A :=
  fun w =>
    match fn w with
    | (Ok a, w1) => (Ok a, w1)
    | (Raise e, w1) =>
        match attempts_left with
        | O => (Raise (RetryError e), w1)
        | S n =>
            match time_sleep (wait attempt_number) w1 with
            | (_, w2) => retrying wait n (attempt_number + 1) fn w2
            end
        end
    end.

Definition retry {A : Type} (wait : Z -> Z) (stop_after_attempt : Z) (fn : M A) : M A :=
  retrying wait (Z.to_nat (stop_after_attempt - 1)) 1 fn.

(** ** functools.lru_cache *)

Definition KeyItem_eq_dec (a b : KeyItem) : {a = b} + {a <> b}.
Proof. decide equality. apply string_dec. Defined.

Definition CacheKey_eq_dec (a b : CacheKey) : {a = b} + {a <> b} :=
  list_eq_dec KeyItem_eq_dec a b.

(** [functools._make_key]: the positional values, then, when there are
    keyword arguments, the marker and each keyword name and value. *)
Definition make_key (c : Call) : CacheKey :=
  map KVal (args c) ++
  match kwds c with
  | [] => []
  | _ :: _ => KwdMark :: flat_map (fun kv => [KVal (fst kv); KVal (snd kv)]) (kwds c)
  end.

Fixpoint cache_get (key : CacheKey) (c : list (CacheKey * DataFrame)) : option DataFrame :=
  match c with
  | [] => None
  | (k, v) :: rest => if CacheKey_eq_dec key k then Some v else cache_get key rest
  end.

Fixpoint cache_remove (key : CacheKey) (c : list (CacheKey * DataFrame))
    : list (CacheKey * DataFrame) :=
  match c with
  | [] => []
  | (k, v) :: rest =>
      if CacheKey_eq_dec key k then cache_remove key rest else (k, v) :: cache_remove key rest
  end.

(** What the wrapper does with a fresh result: nothing when the key got in
    meanwhile or when [maxsize] is 0; when the cache is full the oldest
    entry leaves; the new entry is the most recent one. *)
Definition cache_store (maxsize : nat) (key : CacheKey) (v : DataFrame)
    (c : list (CacheKey * DataFrame)) : list (CacheKey * DataFrame) :=
  match maxsize with
  | O => c
  | S _ =>
      match cache_get key c with
      | Some _ => c
      | None =>
          if (maxsize <=? List.length c)%nat then (key, v) :: removelast c
          else (key, v) :: c
      end
  end.

Arguments cache_store : simpl never.

(** The wrapper [lru_cache(maxsize)] puts around [user_function].  A hit
    moves the entry to the front and returns the stored value without
    calling the function; a miss calls it, and stores the value only when
    the call returned. *)
Definition lru_cache (maxsize : nat) (user_function : Call -> M DataFrame)
    (c : Call) : M DataFrame :=
  fun w =>
    let key := make_key c in
    match cache_get key (cache w) with
    | Some v => (Ok v, set_cache w ((key, v) :: cache_remove key (cache w)))
    | None =>
        match user_function c w with
        | (Ok v, w1) => (Ok v, set_cache w1 (cache_store maxsize key v (cache w1)))
        | (Raise e, w1) => (Raise e, w1)
        end
    end.

(** Binding the arguments of a call to the parameter names of a function
    without defaults, as Python does on entry. *)
Fixpoint bind_positional (params : list string) (pos : list string)
    : result (list (string * string) * list string) :=
  match pos, params with
  | [], _ => Ok ([], params)
  | _ :: _, [] => Raise (TypeError "too many positional arguments")
  | v :: pos', p :: params' =>
      match bind_positional params' pos' with
      | Ok (bound, free) => Ok ((p, v) :: bound, free)
      | Raise e => Raise e
      end
  end.

Fixpoint bind_keywords (bound : list (string * string)) (free : list string)
    (kw : list (string * string)) : result (list (string * string)) :=
  match kw with
  | [] =>
      match free with
      | [] => Ok bound
      | _ :: _ => Raise (TypeError "missing required argument")
      end
  | (k, v) :: kw' =>
      if existsb (String.eqb k) free
      then bind_keywords (bound ++ [(k, v)]) (filter (fun p => negb (String.eqb k p)) free) kw'
      else Raise (TypeError "unexpected or repeated keyword argument")
  end.

Fixpoint assoc {V : Type} (k : string) (l : list (string * V)) : option V :=
  match l with
  | [] => None
  | (k', v) :: rest => if String.eqb k k' then Some v else assoc k rest
  end.

Definition bind_arguments (params : list string) (c : Call)
    : result (list (string * string)) :=
  match bind_positional params (args c) with
  | Ok (bound, free) => bind_keywords bound free (kwds c)
  | Raise e => Raise e
  end.

(** ** Python built-ins the program uses *)

(** A value the page can send for the horizon field. *)
Inductive pyval : Type :=
| PyInt (z : Z)
| PyFloat (f : float)
| PyStr (s : string)
| PyBool (b : bool)
| PyNone.

Definition is_space (c : ascii) : bool :=
  let n := nat_of_ascii c in
  ((9 <=? n) && (n <=? 13) || (28 <=? n) && (n <=? 32))%nat.

Definition is_digit (c : ascii) : bool :=
  let n := nat_of_ascii c in ((48 <=? n) && (n <=? 57))%nat.

Definition digit_value (c : ascii) : Z := Z.of_nat (nat_of_ascii c) - 48.

Fixpoint lstrip (l : list ascii) : list ascii :=
  match l with
  | [] => []
  | c :: r => if is_space c then lstrip r else l
  end.

Definition strip (l : list ascii) : list ascii := rev (lstrip (rev (lstrip l))).

(** Decimal digits, with single underscores allowed between two digits. *)
Fixpoint parse_digits (acc : Z) (after_digit : bool) (l : list ascii) : option Z :=
  match l with
  | [] => if after_digit then Some acc else None
  | c :: r =>
      if is_digit c then parse_digits (10 * acc + digit_value c) true r
      else if Ascii.eqb c "_" && after_digit then parse_digits acc false r
      else None
  end.

(** The text [int()] accepts, for text made of ASCII characters: blanks
    around an optional sign and decimal digits. *)
Definition parse_int (s : string) : option Z :=
  match strip (list_ascii_of_string s) with
  | [] => None
  | c :: r =>
      if Ascii.eqb c "-" then option_map Z.opp (parse_digits 0 false r)
      else if Ascii.eqb c "+" then parse_digits 0 false r
      else parse_digits 0 false (c :: r)
  end.

(** Truncation of a float toward zero, where it has an integer part. *)
Definition float_trunc (f : float) : result Z :=
  match Prim2SF f with
  | S754_zero _ => Ok 0
  | S754_finite s m e =>
      let a := if 0 <=? e then Z.pos m * 2 ^ e else Z.pos m / 2 ^ (- e) in
      Ok (if s then - a else a)
  | S754_infinity _ => Raise (OverflowError "cannot convert float infinity to integer")
  | S754_nan => Raise (ValueError "cannot convert float NaN to integer")
  end.

(** [int(x)]. *)
Definition py_int (x : pyval) : result Z :=
  match x with
  | PyInt z => Ok z
  | PyBool b => Ok (if b then 1 else 0)
  | PyFloat f => float_trunc f
  | PyStr s =>
      match parse_int s with
      | Some z => Ok z
      | None => Raise (ValueError "invalid literal for int() with base 10")
      end
  | PyNone => Raise (TypeError "int() argument must be a string, a bytes-like object or a real number, not 'NoneType'")
  end.

(** A Python [int] as a float, rounded to nearest even. *)
Definition float_of_Z (z : Z) : float := SF2Prim (binary_normalize prec emax z 0 false).

(** [str(n)] for an [int]. *)
Definition str_of_Z (z : Z) : string := DecimalString.NilEmpty.string_of_int (Z.to_int z).

(** [range(lo, hi)]. *)
Definition range (lo hi : Z) : list Z :=
  map (fun k => lo + Z.of_nat k) (seq 0 (Z.to_nat (hi - lo))).

Definition upper_ascii (c : ascii) : ascii :=
  let n := nat_of_ascii c in
  if ((97 <=? n) && (n <=? 122))%nat then ascii_of_nat (n - 32) else c.

(** [s.upper()], on ASCII text. *)
Fixpoint upper (s : string) : string :=
  match s with
  | EmptyString => EmptyString
  | String c r => String (upper_ascii c) (upper r)
  end.

(** [d[k]] on a dict. *)
Definition getitem (d : Info) (k : string) : result float :=
  match assoc k d with
  | Some v => Ok v
  | None => Raise (KeyError k)
  end.

(** [k in d]. *)
Definition contains (d : Info) (k : string) : bool :=
  match assoc k d with
  | Some _ => true
  | None => false
  end.

(** [data.iloc[i]] and [data.index[i]], with Python's negative positions. *)
Definition iloc (data : DataFrame) (i : Z) : result Bar :=
  let n := Z.of_nat (List.length (rows data)) in
  let j := if i <? 0 then i + n else i in
  if (0 <=? j) && (j <? n)
  then match nth_error (rows data) (Z.to_nat j) with
       | Some b => Ok b
       | None => Raise (IndexError "single positional indexer is out-of-bounds")
       end
  else Raise (IndexError "single positional indexer is out-of-bounds").

Definition index_at (data : DataFrame) (i : Z) : result Timestamp :=
  match iloc data i with
  | Ok b => Ok (Date b)
  | Raise _ => Raise (IndexError "index out of bounds")
  end.

(** [data.reset_index()['Date']]: the former index, when it was named
    'Date'; no other column of the frame has that name. *)
Definition column_Date (data : DataFrame) : result (list Timestamp) :=
  match index_name data with
  | Some name =>
      if String.eqb name "Date" then Ok (map Date (rows data))
      else Raise (KeyError "Date")
  | None => Raise (KeyError "Date")
  end.

(** ** Chart descriptions *)

Inductive Trace : Type :=
| Indicator (title : string) (delta_reference : float) (mode : string)
    (value : float) (number_prefix : string) (valueformat : string)
| Candlestick (x : list Timestamp) (open high low close : list float) (showlegend : bool)
| Scatter (x : list Timestamp) (y : list float) (mode : string)
    (name : option string) (line_color : option string) (showlegend : bool).

(** A figure: its traces, each with the subplot cell it was added to, and
    the layout properties that were set. *)
Record Figure : Type := mkFigure {
  traces : list (Trace * option (nat * nat));
  layout : list (string * string)
}.

(** [go.Figure()]. *)
Definition go_Figure : Figure := mkFigure [] [].

(** The [styles] dict, lines 16-22. *)
Definition styles : list (string * string) :=
  [("background", "#111111"); ("text", "#ffffff"); ("buttonBg", "#ff6600");
   ("buttonText", "#ffffff"); ("buttonHover", "#cc5200")].

Definition style (k : string) : string :=
  match assoc k styles with
  | Some v => v
  | None => ""
  end.

(** The parameters of [get_cached_data(symbol, period, interval)] as a
    call binds them. *)
Definition bind_get_cached_data (c : Call) : result Query :=
  match bind_arguments ["symbol"; "period"; "interval"] c with
  | Ok bound =>
      match assoc "symbol" bound, assoc "period" bound, assoc "interval" bound with
      | Some symbol, Some period, Some interval => Ok (symbol, period, interval)
      | _, _, _ => Raise (TypeError "missing required argument")
      end
  | Raise e => Raise e
  end.

(** ** The program *)

Section Dashboard.

Variable P : Provider.

(** [yf.download(symbol, period=period, interval=interval)]. *)
Definition download (q : Query) : M DataFrame :=
  fun w =>
    (yf_download P (List.length (downloads w)) q,
     mkWorld (cache w) (downloads w ++ [q]) (sleeps w) (info_calls w)).

(** [yf.Ticker(symbol).info]. *)
Definition ticker_info (symbol : string) : M Info :=
  fun w =>
    (yf_ticker_info P (List.length (info_calls w)) symbol,
     mkWorld (cache w) (downloads w) (sleeps w) (info_calls w ++ [symbol])).

(** Lines 25-28.  Every caller passes [period] and [interval], so their
    defaults are not modelled. *)
Definition fetch_data (symbol period interval : string) : M DataFrame :=
  retry (wait_exponential 1 4 60) 5
    (data <- download (symbol, period, interval) ;;
     ret data).

(** Lines 31-33.  The body sees the call after Python has bound it to
    [symbol], [period], [interval]. *)
Definition get_cached_data_body (c : Call) : M DataFrame :=
  q <- lift (bind_get_cached_data c) ;;
  match q with
  | (symbol, period, interval) => fetch_data symbol period interval
  end.

Definition get_cached_data : Call -> M DataFrame :=
  lru_cache 128 get_cached_data_body.

(** Lines 36-62. *)
Definition price_indicator (symbol : string) : M Figure :=
  info <- ticker_info symbol ;;
  prices <-
    (if contains info "regularMarketPrice"
     then
       open_price <- lift (getitem info "regularMarketOpen") ;;
       current_price <- lift (getitem info "regularMarketPrice") ;;
       ret (open_price, current_price)
     else
       data <- get_cached_data (mkCall [symbol] [("period", "1d"); ("interval", "1d")]) ;;
       first <- lift (iloc data 0) ;;
       last <- lift (iloc data (-1)) ;;
       ret (Open first, Close last)) ;;
  ret (mkFigure
         [(Indicator (upper symbol ++ " Current Price")%string (fst prices) "number+delta"
             (snd prices) "$" ".2f", None)]
         [("plot_bgcolor", style "background");
          ("paper_bgcolor", style "background");
          ("font.color", style "text")]).

(** Lines 65-96.  After [reset_index] the dates are the column named
    after the index; [data['Date']] on lines 76 and 85 raises [KeyError]
    when that name is not 'Date', and nothing between the lookup and line
    76 has an effect.  [prediction_days] is a parameter the body does not
    use; callers that leave it out pass its default, 10. *)
Definition candlestick_chart (symbol period interval : string) (prediction_days : Z)
    : M Figure :=
  data <- get_cached_data (mkCall [symbol; period; interval] []) ;;
  dates <- lift (column_Date data) ;;
  ret (mkFigure
         [(Candlestick dates (map Open (rows data)) (map High (rows data))
             (map Low (rows data)) (map Close (rows data)) false, Some (1%nat, 1%nat));
          (Scatter dates (map Volume (rows data)) "lines" None None false,
             Some (2%nat, 1%nat))]
         [("subplot_titles[0]", (upper symbol ++ " OHLC")%string);
          ("subplot_titles[1]", "Volume");
          ("xaxis.rangeslider.visible", "False");
          ("plot_bgcolor", style "background");
          ("paper_bgcolor", style "background");
          ("font.color", style "text")]).

(** Lines 99-124.  The dates are computed one by one, and the first that
    is no [Timestamp] any more ends the call.  Once [data.index[-1]] has
    returned the frame has a last row, so the lookup of the last close
    inside the second comprehension is done once, before it. *)
Definition prediction_chart (symbol : string) (prediction_days : Z) : M Figure :=
  data <- get_cached_data (mkCall [symbol] [("period", "1y"); ("interval", "1d")]) ;;
  current_date <- lift (index_at data (-1)) ;;
  prediction_dates <-
    lift (comprehension
            (fun i =>
               match timedelta_days i with
               | Ok days => Timestamp_add current_date days
               | Raise e => Raise e
               end)
            (range 1 (prediction_days + 1))) ;;
  last <- lift (iloc data (-1)) ;;
  let predicted_prices :=
    map (fun i => (Close last + float_of_Z i)%float) (range 1 (prediction_days + 1)) in
  ret (mkFigure
         [(Scatter (map Date (rows data)) (map Close (rows data)) "lines"
             (Some "Actual Prices") (Some "blue") true, None);
          (Scatter prediction_dates predicted_prices "lines" (Some "Predicted Prices")
             (Some "green") true, None)]
         [("title", (upper symbol ++ " Price Prediction for Next "
                       ++ str_of_Z prediction_days ++ " Days")%string);
          ("xaxis_title", "Date");
          ("yaxis_title", "Price");
          ("plot_bgcolor", style "background");
          ("paper_bgcolor", style "background");
          ("font.color", style "text")]).

(** Lines 130-134: what the module does when it is loaded. *)
Definition startup : M (Figure * Figure * Figure) :=
  let symbol := "aapl" in
  price_chart <- candlestick_chart symbol "1y" "1d" 10 ;;
  price_metric <- price_indicator symbol ;;
  let prediction_days := 10 in
  prediction_fig <- prediction_chart symbol prediction_days ;;
  ret (price_metric, price_chart, prediction_fig).

(** The [try] block of [update_charts], lines 177-181. *)
Definition update_charts_try (symbol : string) (prediction_days : pyval)
    : M (Figure * Figure * Figure) :=
  prediction_days <- lift (py_int prediction_days) ;;
  price_metric <- price_indicator symbol ;;
  price_chart <- candlestick_chart symbol "1y" "1d" 10 ;;
  prediction_fig <- prediction_chart symbol prediction_days ;;
  ret (price_metric, price_chart, prediction_fig).

(** Lines 175-183. *)
Definition update_charts (symbol : string) (prediction_days : pyval)
    : M (Figure * Figure * Figure) :=
  try_except (update_charts_try symbol prediction_days)
    (fun e => ret (go_Figure, go_Figure, go_Figure)).

(** The operations a running process performs on its world: the calls the
    page makes, and a direct call of the cached function. *)
Inductive Op : Type :=
| OpStartup
| OpUpdateCharts (symbol : string) (prediction_days : pyval)
| OpPriceIndicator (symbol : string)
| OpCandlestickChart (symbol period interval : string) (prediction_days : Z)
| OpPredictionChart (symbol : string) (prediction_days : Z)
| OpGetCachedData (c : Call).

Definition run_op (o : Op) (w : World) : World :=
  match o with
  | OpStartup => snd (startup w)
  | OpUpdateCharts s d => snd (update_charts s d w)
  | OpPriceIndicator s => snd (price_indicator s w)
  | OpCandlestickChart s p i d => snd (candlestick_chart s p i d w)
  | OpPredictionChart s d => snd (prediction_chart s d w)
  | OpGetCachedData c => snd (get_cached_data c w)
  end.

(** The worlds a process can be in. *)
Inductive reachable : World -> Prop :=
| reachable_init : reachable init_world
| reachable_step : forall o w, reachable w -> reachable (run_op o w).

End Dashboard.

(** ** Providers and worlds to run the program on *)

Definition sample_frame : DataFrame :=
  mkFrame (Some "Date")
    [mkBar 1700000000000000000 98 99.5 97 99 1000;
     mkBar 1700086400000000000 99 101 98.5 100 1200].

(** A frame without rows, built without a name for its index. *)
Definition empty_frame : DataFrame := mkFrame None [].

Definition sample_info : Info :=
  [("regularMarketOpen", 99%float); ("regularMarketPrice", 100.5%float)].

(** Every request is answered. *)
Definition steady_provider : Provider :=
  mkProvider (fun _ _ => Ok sample_frame) (fun _ _ => Ok sample_info).

(** The first four downloads time out, later ones are answered; the quote
    snapshot carries no price. *)
Definition flaky_provider : Provider :=
  mkProvider
    (fun n _ => if (n <? 4)%nat then Raise (ProviderError "timed out") else Ok sample_frame)
    (fun _ _ => Ok []).

(** No download is ever answered. *)
Definition failing_provider : Provider :=
  mkProvider (fun _ _ => Raise (ProviderError "timed out")) (fun _ _ => Ok []).

(** A provider that does not know the symbol: an empty frame and a quote
    snapshot without a price. *)
Definition unknown_symbol_provider : Provider :=
  mkProvider (fun _ _ => Ok empty_frame) (fun _ _ => Ok []).

(** Downloads are answered, the quote snapshot carries no price. *)
Definition no_quote_provider : Provider :=
  mkProvider (fun _ _ => Ok sample_frame) (fun _ _ => Ok []).

(** The call forms of the source. *)
Definition positional_call (symbol period interval : string) : Call :=
  mkCall [symbol; period; interval] [].

Definition keyword_call (symbol period interval : string) : Call :=
  mkCall [symbol] [("period", period); ("interval", interval)].

(** The world after [n] successive misses on the symbols "1", .., "n":
    symbol "1" is the least recently used. *)
Fixpoint filled_world (n : nat) : World :=
  match n with
  | O => init_world
  | S m =>
      run_op steady_provider
        (OpGetCachedData (positional_call (str_of_Z (Z.of_nat n)) "1y" "1d"))
        (filled_world m)
  end.

(** ** Vocabulary of the statements *)

(** The wait of [fetch_data]'s policy before attempt [k]: the one computed
    after attempt [k - 1] failed. *)
Definition wait_before_attempt (k : Z) : Z := wait_exponential 1 4 60 (k - 1).

(** The waits before attempts [2 .. m]. *)
Definition waits_up_to (wait : Z -> Z) (a : Z) (m : nat) : list Z :=
  map (fun j => wait (a + Z.of_nat j)) (seq 0 m).

Definition total (l : list Z) : Z := fold_right Z.add 0 l.

Definition resident (c : Call) (w : World) : Prop :=
  cache_get (make_key c) (cache w) <> None.

(** What [lru_cache] maintains: no key twice, no more than [maxsize] keys. *)
Definition cache_ok (maxsize : nat) (c : list (CacheKey * DataFrame)) : Prop :=
  NoDup (map fst c) /\ (List.length c <= maxsize)%nat.

(** A computation that leaves everything but the logs as it was. *)
Definition keeps_cache {A : Type} (m : M A) : Prop :=
  forall w, cache (snd (m w)) = cache w.

Definition maintains {A : Type} (m : M A) : Prop :=
  forall w, cache_ok 128 (cache w) -> cache_ok 128 (cache (snd (m w))).

(** A computation that keeps an invariant of the world. *)
Definition preserves {A : Type} (I : World -> Prop) (m : M A) : Prop :=
  forall w, I w -> I (snd (m w)).

(** Every entry of the cache is an answer of the provider: its key is the
    key of a call that binds to a query, a download of that query is in
    the log, and the stored frame is what the provider answered to it. *)
Definition answered (P : Provider) (w : World) : Prop :=
  forall k v, In (k, v) (cache w) ->
    exists c q n,
      k = make_key c /\ bind_get_cached_data c = Ok q /\
      nth_error (downloads w) n = Some q /\ yf_download P n q = Ok v.

(** A computation that makes at most [calls] downloads and sleeps at most
    [seconds] seconds, and only appends to the two logs. *)
Definition costs {A : Type} (m : M A) (calls : nat) (seconds : Z) : Prop :=
  forall w, exists d s,
    downloads (snd (m w)) = downloads w ++ d /\
    sleeps (snd (m w)) = sleeps w ++ s /\
    (List.length d <= calls)%nat /\ total s <= seconds.

(** Only every fifth download is answered, and the quote snapshot carries
    no price: the slowest refresh there is. *)
Definition slow_provider : Provider :=
  mkProvider
    (fun n _ => if (n mod 5 =? 4)%nat then Ok sample_frame
                else Raise (ProviderError "timed out"))
    (fun _ _ => Ok []).

(** * Properties *)

Section RetryFacts.

Variable P : Provider.

Lemma seq_shift_map : forall (f : nat -> Z) (n : nat),
  map f (seq 1 n) = map (fun j => f (S j)) (seq 0 n).
Proof.
  intros f n. rewrite <- seq_shift. rewrite map_map. reflexivity.
Qed.

Lemma waits_up_to_S : forall wait a m,
  waits_up_to wait a (S m) = wait a :: waits_up_to wait (a + 1) m.
Proof.
  intros wait a m. unfold waits_up_to. simpl seq. simpl map.
  rewrite Z.add_0_r. f_equal. rewrite seq_shift_map.
  apply map_ext. intros j. f_equal. lia.
Qed.

Lemma repeat_snoc : forall (q : Query) (l : list Query) (m : nat),
  (l ++ [q]) ++ repeat q m = l ++ repeat q (S m).
Proof.
  intros q l m. rewrite <- app_assoc. reflexivity.
Qed.

(** Every attempt fails: all [n + 1] attempts are made, whatever the
    exceptions are, and the last one comes back inside [RetryError]. *)
Lemma retrying_all_fail : forall (wait : Z -> Z) (q : Query) (n : nat) (a : Z)
    (w : World) (es : nat -> exn),
  (forall j, (j <= n)%nat ->
     yf_download P (List.length (downloads w) + j) q = Raise (es j)) ->
  retrying wait n a (data <- download P q ;; ret data) w =
  (Raise (RetryError (es n)),
   mkWorld (cache w) (downloads w ++ repeat q (S n))
     (sleeps w ++ waits_up_to wait a n) (info_calls w)).
Proof.
  intros wait q n. induction n as [|n IH]; intros a w es H.
  - pose proof (H 0%nat (Nat.le_refl _)) as H0. rewrite Nat.add_0_r in H0.
    simpl. unfold bind, download. rewrite H0.
    unfold waits_up_to. simpl. rewrite app_nil_r. reflexivity.
  - simpl. unfold bind at 1. unfold download at 1.
    pose proof (H 0%nat (Nat.le_0_l _)) as H0. rewrite Nat.add_0_r in H0.
    rewrite H0.
    rewrite (IH (a + 1) _ (fun j => es (S j))).
    + simpl cache. simpl downloads. simpl sleeps. simpl info_calls.
      rewrite repeat_snoc. rewrite waits_up_to_S.
      rewrite <- app_assoc. reflexivity.
    + intros j Hj. simpl downloads. rewrite length_app. simpl.
      replace (List.length (downloads w) + 1 + j)%nat
        with (List.length (downloads w) + S j)%nat by lia.
      apply H. lia.
Qed.

(** The first [k] attempts fail and the next one is answered: the answer
    is returned after [k + 1] attempts and [k] waits. *)
Lemma retrying_succeeds_at : forall (wait : Z -> Z) (q : Query) (n : nat) (a : Z)
    (w : World) (k : nat) (es : nat -> exn) (df : DataFrame),
  (k <= n)%nat ->
  (forall j, (j < k)%nat ->
     yf_download P (List.length (downloads w) + j) q = Raise (es j)) ->
  yf_download P (List.length (downloads w) + k) q = Ok df ->
  retrying wait n a (data <- download P q ;; ret data) w =
  (Ok df,
   mkWorld (cache w) (downloads w ++ repeat q (S k))
     (sleeps w ++ waits_up_to wait a k) (info_calls w)).
Proof.
  intros wait q n. induction n as [|n IH]; intros a w k es df Hk Hfail Hok.
  - assert (k = 0)%nat by lia. subst k. rewrite Nat.add_0_r in Hok.
    simpl. unfold bind, download. rewrite Hok. unfold ret, waits_up_to. simpl.
    rewrite app_nil_r. reflexivity.
  - destruct k as [|k].
    + rewrite Nat.add_0_r in Hok.
      simpl. unfold bind, download. rewrite Hok. unfold ret, waits_up_to. simpl.
      rewrite app_nil_r. reflexivity.
    + simpl. unfold bind at 1. unfold download at 1.
      pose proof (Hfail 0%nat (Nat.lt_0_succ _)) as H0. rewrite Nat.add_0_r in H0.
      rewrite H0.
      rewrite (IH (a + 1) _ k (fun j => es (S j)) df).
      * simpl cache. simpl downloads. simpl sleeps. simpl info_calls.
        rewrite repeat_snoc. rewrite waits_up_to_S.
        rewrite <- app_assoc. reflexivity.
      * lia.
      * intros j Hj. simpl downloads. rewrite length_app. simpl.
        replace (List.length (downloads w) + 1 + j)%nat
          with (List.length (downloads w) + S j)%nat by lia.
        apply Hfail. lia.
      * simpl downloads. rewrite length_app. simpl.
        replace (List.length (downloads w) + 1 + k)%nat
          with (List.length (downloads w) + S k)%nat by lia.
        exact Hok.
Qed.

(** Whatever the provider does, the loop makes between one and [n + 1]
    attempts, sleeps the policy's waits between them, and touches nothing
    else. *)
Lemma retrying_shape : forall (wait : Z -> Z) (q : Query) (n : nat) (a : Z) (w : World),
  exists m, (1 <= m <= S n)%nat /\
    snd (retrying wait n a (data <- download P q ;; ret data) w) =
    mkWorld (cache w) (downloads w ++ repeat q m)
      (sleeps w ++ waits_up_to wait a (m - 1)) (info_calls w).
Proof.
  intros wait q n. induction n as [|n IH]; intros a w.
  - exists 1%nat. split; [lia|]. simpl. unfold bind, download.
    destruct (yf_download P (List.length (downloads w)) q);
      unfold ret, waits_up_to; simpl; rewrite app_nil_r; reflexivity.
  - simpl. unfold bind at 1. unfold download at 1.
    destruct (yf_download P (List.length (downloads w)) q).
    + exists 1%nat. split; [lia|]. unfold ret, waits_up_to. simpl.
      rewrite app_nil_r. reflexivity.
    + match goal with
      | |- context [retrying wait n (a + 1) _ ?w2] =>
          destruct (IH (a + 1) w2) as [m [Hm Hw]]
      end.
      exists (S m). split; [lia|]. rewrite Hw.
      simpl cache. simpl downloads. simpl sleeps. simpl info_calls.
      rewrite repeat_snoc. rewrite <- app_assoc.
      replace (S m - 1)%nat with (S (m - 1)) by lia.
      rewrite waits_up_to_S. reflexivity.
Qed.

End RetryFacts.

Section CacheFacts.

Lemma cache_get_Some_In : forall k c v,
  cache_get k c = Some v -> In k (map fst c).
Proof.
  intros k c. induction c as [|[k' v'] c IH]; intros v H; simpl in *.
  - discriminate.
  - destruct (CacheKey_eq_dec k k') as [->|Hne]; [now left|]. right. eauto.
Qed.

Lemma cache_get_None_iff : forall k c,
  cache_get k c = None <-> ~ In k (map fst c).
Proof.
  intros k c. induction c as [|[k' v'] c IH]; simpl.
  - tauto.
  - destruct (CacheKey_eq_dec k k') as [->|Hne].
    + split; [discriminate|]. intros H. exfalso. apply H. now left.
    + rewrite IH. split.
      * intros H [E|HIn]; [congruence|tauto].
      * tauto.
Qed.

Lemma cache_get_In_Some : forall k c,
  In k (map fst c) -> exists v, cache_get k c = Some v.
Proof.
  intros k c HIn. destruct (cache_get k c) eqn:E; [eauto|].
  apply cache_get_None_iff in E. contradiction.
Qed.

Lemma cache_remove_In : forall k k' c,
  In k' (map fst (cache_remove k c)) <-> In k' (map fst c) /\ k' <> k.
Proof.
  intros k k' c. induction c as [|[k0 v0] c IH]; simpl.
  - tauto.
  - destruct (CacheKey_eq_dec k k0) as [->|Hne]; simpl; rewrite IH.
    + split; [tauto|]. intros [[E|HIn] Hk]; [congruence|tauto].
    + split; [|tauto]. intros [E|[HIn Hk]]; [|tauto]. subst. split; [now left|congruence].
Qed.

Lemma cache_remove_NoDup : forall k c,
  NoDup (map fst c) -> NoDup (map fst (cache_remove k c)).
Proof.
  intros k c. induction c as [|[k0 v0] c IH]; simpl; intros H.
  - constructor.
  - inversion H as [|? ? Hnotin Hnd]; subst.
    destruct (CacheKey_eq_dec k k0); simpl; [auto|].
    constructor; [|auto]. rewrite cache_remove_In. tauto.
Qed.

Lemma cache_remove_length : forall k c,
  (List.length (cache_remove k c) <= List.length c)%nat.
Proof.
  intros k c. induction c as [|[k0 v0] c IH]; simpl; [lia|].
  destruct (CacheKey_eq_dec k k0); simpl; lia.
Qed.

Lemma cache_remove_length_hit : forall k c v,
  cache_get k c = Some v ->
  (S (List.length (cache_remove k c)) <= List.length c)%nat.
Proof.
  intros k c. induction c as [|[k0 v0] c IH]; simpl; intros v H.
  - discriminate.
  - destruct (CacheKey_eq_dec k k0).
    + pose proof (cache_remove_length k c). lia.
    + simpl. apply IH in H. lia.
Qed.

Lemma cache_get_remove_other : forall k k' c,
  k' <> k -> cache_get k' (cache_remove k c) = cache_get k' c.
Proof.
  intros k k' c Hne. induction c as [|[k0 v0] c IH]; simpl; [reflexivity|].
  destruct (CacheKey_eq_dec k k0) as [->|Hk].
  - destruct (CacheKey_eq_dec k' k0); [contradiction|exact IH].
  - simpl. destruct (CacheKey_eq_dec k' k0); [reflexivity|exact IH].
Qed.

Lemma removelast_map_fst : forall (c : list (CacheKey * DataFrame)),
  map fst (removelast c) = removelast (map fst c).
Proof.
  induction c as [|x [|y c] IH]; simpl in *; [reflexivity|reflexivity|].
  f_equal. exact IH.
Qed.

Lemma removelast_incl : forall (A : Type) (l : list A) (x : A),
  In x (removelast l) -> In x l.
Proof.
  intros A l. induction l as [|a [|b l] IH]; intros x H; simpl in *; [tauto|tauto|].
  destruct H as [->|H]; [now left|]. right. apply IH. exact H.
Qed.

Lemma removelast_NoDup : forall (A : Type) (l : list A),
  NoDup l -> NoDup (removelast l).
Proof.
  intros A l. induction l as [|a [|b l] IH]; intros H; simpl in *.
  - constructor.
  - constructor.
  - inversion H as [|? ? Hnotin Hnd]; subst. constructor.
    + intros HIn. apply Hnotin. apply (removelast_incl _ (b :: l)). exact HIn.
    + apply IH. exact Hnd.
Qed.

Lemma removelast_length : forall (A : Type) (l : list A),
  l <> [] -> S (List.length (removelast l)) = List.length l.
Proof.
  intros A l. induction l as [|a [|b l] IH]; intros H; simpl in *.
  - congruence.
  - reflexivity.
  - f_equal. apply IH. discriminate.
Qed.

(** The cache in the shape the eviction sees it: older entries, then the
    least recently used one. *)
Lemma cache_get_snoc_other : forall k old lru,
  k <> fst lru -> cache_get k (old ++ [lru]) = cache_get k old.
Proof.
  intros k old [kl vl] Hne. simpl in Hne.
  induction old as [|[k0 v0] old IH]; simpl.
  - destruct (CacheKey_eq_dec k kl); [contradiction|reflexivity].
  - destruct (CacheKey_eq_dec k k0); [reflexivity|exact IH].
Qed.

Lemma cache_store_full : forall n k v c,
  (0 < n)%nat -> cache_get k c = None -> (n <= List.length c)%nat ->
  cache_store n k v c = (k, v) :: removelast c.
Proof.
  intros n k v c Hn Hmiss Hfull. unfold cache_store.
  destruct n as [|n]; [lia|]. rewrite Hmiss.
  destruct (Nat.leb_spec (S n) (List.length c)); [reflexivity|lia].
Qed.

Lemma cache_store_room : forall n k v c,
  cache_get k c = None -> (List.length c < n)%nat ->
  cache_store n k v c = (k, v) :: c.
Proof.
  intros n k v c Hmiss Hroom. unfold cache_store.
  destruct n as [|n]; [lia|]. rewrite Hmiss.
  destruct (Nat.leb_spec (S n) (List.length c)); [lia|reflexivity].
Qed.

Lemma cache_store_ok : forall n k v c,
  cache_ok n c -> cache_ok n (cache_store n k v c).
Proof.
  intros n k v c [Hnd Hlen]. unfold cache_store.
  destruct n as [|n]; [split; assumption|].
  destruct (cache_get k c) eqn:Hget; [split; assumption|].
  apply cache_get_None_iff in Hget.
  destruct (Nat.leb_spec (S n) (List.length c)) as [Hfull|Hroom].
  - assert (Hne : c <> []) by (destruct c; simpl in *; [lia|discriminate]).
    pose proof (removelast_length _ c Hne) as Hl.
    split; simpl.
    + constructor.
      * rewrite removelast_map_fst. intros HIn. apply Hget.
        apply removelast_incl. exact HIn.
      * rewrite removelast_map_fst. apply removelast_NoDup. exact Hnd.
    + lia.
  - split; simpl; [constructor; assumption|lia].
Qed.

Lemma cache_hit_ok : forall n k v c,
  cache_ok n c -> cache_get k c = Some v ->
  cache_ok n ((k, v) :: cache_remove k c).
Proof.
  intros n k v c [Hnd Hlen] Hget. split; simpl.
  - constructor.
    + rewrite cache_remove_In. tauto.
    + apply cache_remove_NoDup. exact Hnd.
  - pose proof (cache_remove_length_hit k c v Hget). lia.
Qed.

End CacheFacts.

Section ProgramFacts.

Variable P : Provider.

Lemma fetch_data_shape : forall symbol period interval w,
  exists m, (1 <= m <= 5)%nat /\
    snd (fetch_data P symbol period interval w) =
    mkWorld (cache w) (downloads w ++ repeat (symbol, period, interval) m)
      (sleeps w ++ waits_up_to (wait_exponential 1 4 60) 1 (m - 1)) (info_calls w).
Proof.
  intros symbol period interval w. unfold fetch_data, retry.
  change (Z.to_nat (5 - 1)) with 4%nat.
  apply retrying_shape.
Qed.

Lemma fetch_data_keeps_cache : forall symbol period interval,
  keeps_cache (fetch_data P symbol period interval).
Proof.
  intros symbol period interval w.
  destruct (fetch_data_shape symbol period interval w) as [m [_ Hw]].
  rewrite Hw. reflexivity.
Qed.

Lemma get_cached_data_body_keeps_cache : forall c,
  keeps_cache (get_cached_data_body P c).
Proof.
  intros c w. unfold get_cached_data_body, bind, lift.
  destruct (bind_get_cached_data c) as [[[symbol period] interval]|e].
  - apply fetch_data_keeps_cache.
  - reflexivity.
Qed.

Lemma get_cached_data_body_bound : forall c symbol period interval w,
  bind_get_cached_data c = Ok (symbol, period, interval) ->
  get_cached_data_body P c w = fetch_data P symbol period interval w.
Proof.
  intros c symbol period interval w H.
  unfold get_cached_data_body, bind, lift. rewrite H. reflexivity.
Qed.

(** A hit: the stored value, no call of the function, the entry in front. *)
Lemma get_cached_data_hit : forall c w v,
  cache_get (make_key c) (cache w) = Some v ->
  get_cached_data P c w =
  (Ok v, set_cache w ((make_key c, v) :: cache_remove (make_key c) (cache w))).
Proof.
  intros c w v H. unfold get_cached_data, lru_cache. rewrite H. reflexivity.
Qed.

(** A miss: the function runs, and only a returned value is stored. *)
Lemma get_cached_data_miss : forall c w,
  cache_get (make_key c) (cache w) = None ->
  get_cached_data P c w =
  match get_cached_data_body P c w with
  | (Ok v, w1) => (Ok v, set_cache w1 (cache_store 128 (make_key c) v (cache w1)))
  | (Raise e, w1) => (Raise e, w1)
  end.
Proof.
  intros c w H. unfold get_cached_data, lru_cache. rewrite H. reflexivity.
Qed.

(** After a call that returned, the key is the most recently used one. *)
Lemma get_cached_data_front : forall c w v w1,
  get_cached_data P c w = (Ok v, w1) ->
  exists rest, cache w1 = (make_key c, v) :: rest.
Proof.
  intros c w v w1 H.
  destruct (cache_get (make_key c) (cache w)) as [v0|] eqn:Hget.
  - rewrite (get_cached_data_hit _ _ _ Hget) in H. inversion H; subst.
    simpl. eauto.
  - rewrite (get_cached_data_miss _ _ Hget) in H.
    pose proof (get_cached_data_body_keeps_cache c w) as Hk.
    destruct (get_cached_data_body P c w) as [[v1|e] w2]; [|discriminate].
    injection H as <- <-. simpl in Hk. unfold set_cache. simpl cache. rewrite Hk.
    destruct (le_lt_dec 128 (List.length (cache w))) as [Hfull|Hroom].
    + rewrite cache_store_full by (assumption || lia). eauto.
    + rewrite cache_store_room by assumption. eauto.
Qed.

Lemma get_cached_data_maintains : forall c, maintains (get_cached_data P c).
Proof.
  intros c w Hok.
  destruct (cache_get (make_key c) (cache w)) as [v0|] eqn:Hget.
  - rewrite (get_cached_data_hit _ _ _ Hget). simpl.
    apply cache_hit_ok; assumption.
  - rewrite (get_cached_data_miss _ _ Hget).
    pose proof (get_cached_data_body_keeps_cache c w) as Hk.
    destruct (get_cached_data_body P c w) as [[v1|e] w2]; simpl in *.
    + apply cache_store_ok. rewrite Hk. exact Hok.
    + rewrite Hk. exact Hok.
Qed.

Lemma maintains_ret : forall (A : Type) (a : A), maintains (ret a).
Proof. intros A a w H. exact H. Qed.

Lemma maintains_lift : forall (A : Type) (r : result A), maintains (lift r).
Proof. intros A r w H. exact H. Qed.

Lemma maintains_keeps : forall (A : Type) (m : M A), keeps_cache m -> maintains m.
Proof. intros A m Hk w H. rewrite Hk. exact H. Qed.

Lemma maintains_bind : forall (A B : Type) (m : M A) (k : A -> M B),
  maintains m -> (forall a, maintains (k a)) -> maintains (bind m k).
Proof.
  intros A B m k Hm Hk w Hok. unfold bind.
  specialize (Hm w Hok). destruct (m w) as [[a|e] w1]; simpl in *.
  - apply Hk. exact Hm.
  - exact Hm.
Qed.

Lemma maintains_try_except : forall (A : Type) (m : M A) (h : exn -> M A),
  maintains m -> (forall e, maintains (h e)) -> maintains (try_except m h).
Proof.
  intros A m h Hm Hh w Hok. unfold try_except.
  specialize (Hm w Hok). destruct (m w) as [[a|e] w1]; simpl in *.
  - exact Hm.
  - apply Hh. exact Hm.
Qed.

Lemma ticker_info_keeps_cache : forall symbol, keeps_cache (ticker_info P symbol).
Proof. intros symbol w. reflexivity. Qed.

Ltac maintains_steps :=
  repeat first
    [ apply maintains_bind; [|intros ?]
    | apply maintains_ret
    | apply maintains_lift
    | apply get_cached_data_maintains
    | apply maintains_keeps; apply ticker_info_keeps_cache
    | match goal with |- maintains (if ?b then _ else _) => destruct b end ].

Lemma price_indicator_maintains : forall symbol, maintains (price_indicator P symbol).
Proof. intros symbol. unfold price_indicator. maintains_steps. Qed.

Lemma candlestick_chart_maintains : forall symbol period interval d,
  maintains (candlestick_chart P symbol period interval d).
Proof. intros. unfold candlestick_chart. maintains_steps. Qed.

Lemma prediction_chart_maintains : forall symbol d,
  maintains (prediction_chart P symbol d).
Proof. intros. unfold prediction_chart. maintains_steps. Qed.

Lemma startup_maintains : maintains (startup P).
Proof.
  unfold startup.
  apply maintains_bind; [apply candlestick_chart_maintains|intros ?].
  apply maintains_bind; [apply price_indicator_maintains|intros ?].
  apply maintains_bind; [apply prediction_chart_maintains|intros ?].
  apply maintains_ret.
Qed.

Lemma update_charts_maintains : forall symbol d, maintains (update_charts P symbol d).
Proof.
  intros symbol d. unfold update_charts, update_charts_try.
  apply maintains_try_except; [|intros ?; apply maintains_ret].
  apply maintains_bind; [apply maintains_lift|intros ?].
  apply maintains_bind; [apply price_indicator_maintains|intros ?].
  apply maintains_bind; [apply candlestick_chart_maintains|intros ?].
  apply maintains_bind; [apply prediction_chart_maintains|intros ?].
  apply maintains_ret.
Qed.

(** In every world the process can be in, the cache holds no key twice and
    at most 128 keys. *)
Lemma reachable_cache_ok : forall w, reachable P w -> cache_ok 128 (cache w).
Proof.
  intros w H. induction H as [|o w H IH].
  - split; simpl; [constructor|lia].
  - destruct o; simpl.
    + apply startup_maintains; assumption.
    + apply update_charts_maintains; assumption.
    + apply price_indicator_maintains; assumption.
    + apply candlestick_chart_maintains; assumption.
    + apply prediction_chart_maintains; assumption.
    + apply get_cached_data_maintains; assumption.
Qed.

End ProgramFacts.

Section FetchFacts.

Variable P : Provider.

Lemma policy_waits : waits_up_to (wait_exponential 1 4 60) 1 4 = [4; 4; 4; 8].
Proof. reflexivity. Qed.

Lemma waits_as_wait_before : forall m : nat,
  waits_up_to (wait_exponential 1 4 60) 1 (m - 1) =
  map wait_before_attempt (range 2 (Z.of_nat m + 1)).
Proof.
  intros m. unfold waits_up_to, range. rewrite map_map.
  replace (Z.to_nat (Z.of_nat m + 1 - 2)) with (m - 1)%nat by lia.
  apply map_ext. intros j. unfold wait_before_attempt. f_equal. lia.
Qed.

Lemma fetch_data_all_fail : forall symbol period interval w (es : nat -> exn),
  (forall j, (j < 5)%nat ->
     yf_download P (List.length (downloads w) + j) (symbol, period, interval) = Raise (es j)) ->
  fetch_data P symbol period interval w =
  (Raise (RetryError (es 4%nat)),
   mkWorld (cache w) (downloads w ++ repeat (symbol, period, interval) 5)
     (sleeps w ++ [4; 4; 4; 8]) (info_calls w)).
Proof.
  intros symbol period interval w es H. unfold fetch_data, retry.
  change (Z.to_nat (5 - 1)) with 4%nat.
  rewrite (retrying_all_fail P _ _ 4 1 w es).
  - rewrite policy_waits. reflexivity.
  - intros j Hj. apply H. lia.
Qed.

Lemma fetch_data_succeeds_at : forall symbol period interval w (k : nat)
    (es : nat -> exn) (df : DataFrame),
  (k < 5)%nat ->
  (forall j, (j < k)%nat ->
     yf_download P (List.length (downloads w) + j) (symbol, period, interval) = Raise (es j)) ->
  yf_download P (List.length (downloads w) + k) (symbol, period, interval) = Ok df ->
  fetch_data P symbol period interval w =
  (Ok df,
   mkWorld (cache w) (downloads w ++ repeat (symbol, period, interval) (S k))
     (sleeps w ++ waits_up_to (wait_exponential 1 4 60) 1 k) (info_calls w)).
Proof.
  intros symbol period interval w k es df Hk Hfail Hok. unfold fetch_data, retry.
  change (Z.to_nat (5 - 1)) with 4%nat.
  apply (retrying_succeeds_at P _ _ 4 1 w k es df); [lia|assumption|assumption].
Qed.

(** A miss whose fetch gives up: the error comes out, the cache is as it
    was. *)
Lemma get_cached_data_all_fail : forall c symbol period interval w (es : nat -> exn),
  bind_get_cached_data c = Ok (symbol, period, interval) ->
  cache_get (make_key c) (cache w) = None ->
  (forall j, (j < 5)%nat ->
     yf_download P (List.length (downloads w) + j) (symbol, period, interval) = Raise (es j)) ->
  get_cached_data P c w =
  (Raise (RetryError (es 4%nat)),
   mkWorld (cache w) (downloads w ++ repeat (symbol, period, interval) 5)
     (sleeps w ++ [4; 4; 4; 8]) (info_calls w)).
Proof.
  intros c symbol period interval w es Hb Hmiss Hfail.
  rewrite (get_cached_data_miss P _ _ Hmiss).
  rewrite (get_cached_data_body_bound P _ _ _ _ _ Hb).
  rewrite (fetch_data_all_fail _ _ _ _ es Hfail). reflexivity.
Qed.

End FetchFacts.

(** * The claims *)

(** C2, amended.  [fetch_data] makes between one and five downloads, and
    the wait slept before attempt [k] is
    [min (max 4 (1 * 2 ^ (k - 2))) 60] seconds: 4, 4, 4 and 8 seconds before
    attempts 2, 3, 4 and 5.  A provider that fails four times and then
    answers is asked five times, the answer is returned, and 20 seconds are
    slept in all. *)
Theorem fetch_data_backoff : forall (P : Provider) (symbol period interval : string)
    (w : World),
  (exists m, (1 <= m <= 5)%nat /\
     downloads (snd (fetch_data P symbol period interval w)) =
       downloads w ++ repeat (symbol, period, interval) m /\
     sleeps (snd (fetch_data P symbol period interval w)) =
       sleeps w ++ map wait_before_attempt (range 2 (Z.of_nat m + 1))) /\
  (forall k, 2 <= k <= 5 ->
     wait_before_attempt k = Z.min (Z.max 4 (1 * 2 ^ (k - 2))) 60) /\
  map wait_before_attempt [2; 3; 4; 5] = [4; 4; 4; 8] /\
  (forall (es : nat -> exn) (df : DataFrame),
     (forall j, (j < 4)%nat ->
        yf_download P (List.length (downloads w) + j) (symbol, period, interval)
          = Raise (es j)) ->
     yf_download P (List.length (downloads w) + 4) (symbol, period, interval) = Ok df ->
     fetch_data P symbol period interval w =
       (Ok df,
        mkWorld (cache w) (downloads w ++ repeat (symbol, period, interval) 5)
          (sleeps w ++ [4; 4; 4; 8]) (info_calls w)) /\
     total [4; 4; 4; 8] = 20).
Proof.
  intros P symbol period interval w. repeat split.
  - destruct (fetch_data_shape P symbol period interval w) as [m [Hm Hw]].
    exists m. rewrite Hw. simpl. rewrite waits_as_wait_before. auto.
  - intros k Hk. unfold wait_before_attempt, wait_exponential.
    replace (k - 1 - 1) with (k - 2) by lia. lia.
  - rewrite (fetch_data_succeeds_at P symbol period interval w 4 es df);
      [rewrite policy_waits; reflexivity|lia|assumption|assumption].
Qed.

(** The provider of the second half of C2: four time-outs, then an
    answer. *)
Lemma fetch_data_backoff_witness :
  wait_before_attempt 3 = Z.min (Z.max 4 (1 * 2 ^ (3 - 2))) 60 /\
  fetch_data flaky_provider "aapl" "1y" "1d" init_world =
    (Ok sample_frame,
     mkWorld [] (repeat ("aapl", "1y", "1d") 5) [4; 4; 4; 8] []) /\
  total [4; 4; 4; 8] = 20.
Proof.
  destruct (fetch_data_backoff flaky_provider "aapl" "1y" "1d" init_world)
    as (_ & Hwait & _ & Hrun).
  split.
  - apply Hwait. lia.
  - apply (Hrun (fun _ => ProviderError "timed out") sample_frame).
    + intros j Hj. simpl.
      destruct j as [|[|[|[|j]]]]; try reflexivity. lia.
    + reflexivity.
Defined.

(** C2 as stated fails: with four failures before the answer the sleeps
    are 4, 4, 4 and 8 seconds, which is less than 4+8+16+32, and the second
    wait is not twice the first. *)
Lemma fetch_data_backoff_counterexample :
  (forall j, (j < 4)%nat ->
     yf_download flaky_provider j ("aapl", "1y", "1d") = Raise (ProviderError "timed out")) /\
  yf_download flaky_provider 4 ("aapl", "1y", "1d") = Ok sample_frame /\
  fst (fetch_data flaky_provider "aapl" "1y" "1d" init_world) = Ok sample_frame /\
  List.length (downloads (snd (fetch_data flaky_provider "aapl" "1y" "1d" init_world))) = 5%nat /\
  sleeps (snd (fetch_data flaky_provider "aapl" "1y" "1d" init_world)) = [4; 4; 4; 8] /\
  ~ (4 + 8 + 16 + 32 <=
       total (sleeps (snd (fetch_data flaky_provider "aapl" "1y" "1d" init_world)))) /\
  wait_before_attempt 3 <> 2 * wait_before_attempt 2.
Proof.
  repeat split.
  - intros j Hj. destruct j as [|[|[|[|j]]]]; try reflexivity. lia.
  - intros H. vm_compute in H. apply H. reflexivity.
  - vm_compute. discriminate.
Qed.

(** C4.  A miss whose fetch fails on all five attempts raises, stores
    nothing and leaves the cache as it was; the next call with the same
    arguments is a miss again and runs the retry-wrapped fetch from its
    first attempt: at least one new download, and five new downloads with
    the same waits when the provider keeps failing. *)
Theorem failed_fetch_is_not_cached : forall (P : Provider) (c : Call)
    (symbol period interval : string) (w : World) (es : nat -> exn),
  bind_get_cached_data c = Ok (symbol, period, interval) ->
  cache_get (make_key c) (cache w) = None ->
  (forall j, (j < 5)%nat ->
     yf_download P (List.length (downloads w) + j) (symbol, period, interval) = Raise (es j)) ->
  exists w1,
    get_cached_data P c w = (Raise (RetryError (es 4%nat)), w1) /\
    cache w1 = cache w /\
    downloads w1 = downloads w ++ repeat (symbol, period, interval) 5 /\
    get_cached_data P c w1 =
      match fetch_data P symbol period interval w1 with
      | (Ok v, w2) => (Ok v, set_cache w2 (cache_store 128 (make_key c) v (cache w2)))
      | (Raise e, w2) => (Raise e, w2)
      end /\
    (exists m, (1 <= m <= 5)%nat /\
       downloads (snd (get_cached_data P c w1)) =
         downloads w1 ++ repeat (symbol, period, interval) m) /\
    (forall es' : nat -> exn,
       (forall j, (j < 5)%nat ->
          yf_download P (List.length (downloads w1) + j) (symbol, period, interval)
            = Raise (es' j)) ->
       exists w2,
         get_cached_data P c w1 = (Raise (RetryError (es' 4%nat)), w2) /\
         downloads w2 = downloads w1 ++ repeat (symbol, period, interval) 5 /\
         sleeps w2 = sleeps w1 ++ [4; 4; 4; 8] /\
         cache w2 = cache w).
Proof.
  intros P c symbol period interval w es Hb Hmiss Hfail.
  eexists. split; [apply (get_cached_data_all_fail P c _ _ _ w es Hb Hmiss Hfail)|].
  set (w1 := mkWorld (cache w) (downloads w ++ repeat (symbol, period, interval) 5)
               (sleeps w ++ [4; 4; 4; 8]) (info_calls w)).
  assert (Hmiss1 : cache_get (make_key c) (cache w1) = None) by exact Hmiss.
  split; [reflexivity|]. split; [reflexivity|]. split; [|split].
  - rewrite (get_cached_data_miss P _ _ Hmiss1).
    rewrite (get_cached_data_body_bound P _ _ _ _ _ Hb). reflexivity.
  - rewrite (get_cached_data_miss P _ _ Hmiss1).
    rewrite (get_cached_data_body_bound P _ _ _ _ _ Hb).
    destruct (fetch_data_shape P symbol period interval w1) as [m [Hm Hw]].
    exists m. split; [exact Hm|].
    destruct (fetch_data P symbol period interval w1) as [[v|e] w2];
      simpl in *; rewrite Hw; reflexivity.
  - intros es' Hfail'. eexists.
    split; [apply (get_cached_data_all_fail P c _ _ _ w1 es' Hb Hmiss1 Hfail')|].
    repeat split.
Qed.

(** A provider that never answers: the first call raises and stores
    nothing, the second call asks the provider five more times. *)
Lemma failed_fetch_is_not_cached_witness :
  exists w1,
    get_cached_data failing_provider (positional_call "aapl" "1y" "1d") init_world =
      (Raise (RetryError (ProviderError "timed out")), w1) /\
    cache w1 = [] /\
    List.length (downloads w1) = 5%nat /\
    List.length
      (downloads (snd (get_cached_data failing_provider
                         (positional_call "aapl" "1y" "1d") w1))) = 10%nat.
Proof.
  destruct (failed_fetch_is_not_cached failing_provider
              (positional_call "aapl" "1y" "1d") "aapl" "1y" "1d" init_world
              (fun _ => ProviderError "timed out"))
    as (w1 & Hrun & Hcache & Hlog & _ & _ & Hagain).
  - reflexivity.
  - reflexivity.
  - intros j Hj. reflexivity.
  - exists w1. split; [exact Hrun|]. split; [exact Hcache|].
    split; [rewrite Hlog; reflexivity|].
    destruct (Hagain (fun _ => ProviderError "timed out")) as (w2 & Hrun2 & Hlog2 & _).
    + intros j Hj. reflexivity.
    + rewrite Hrun2. simpl. rewrite Hlog2, Hlog. reflexivity.
Defined.

(** C5, amended.  Whatever the five exceptions are, each failed attempt
    but the last is followed by another attempt, and after the fifth the
    caller of [fetch_data], and of [get_cached_data] on a miss, gets
    tenacity's [RetryError] around the exception of the last attempt. *)
Theorem exhausted_retries_raise_RetryError : forall (P : Provider)
    (symbol period interval : string) (w : World) (es : nat -> exn),
  (forall j, (j < 5)%nat ->
     yf_download P (List.length (downloads w) + j) (symbol, period, interval) = Raise (es j)) ->
  fetch_data P symbol period interval w =
    (Raise (RetryError (es 4%nat)),
     mkWorld (cache w) (downloads w ++ repeat (symbol, period, interval) 5)
       (sleeps w ++ [4; 4; 4; 8]) (info_calls w)) /\
  (forall c : Call,
     bind_get_cached_data c = Ok (symbol, period, interval) ->
     cache_get (make_key c) (cache w) = None ->
     get_cached_data P c w = fetch_data P symbol period interval w).
Proof.
  intros P symbol period interval w es Hfail. split.
  - apply fetch_data_all_fail. exact Hfail.
  - intros c Hb Hmiss.
    rewrite (get_cached_data_all_fail P c _ _ _ w es Hb Hmiss Hfail).
    rewrite (fetch_data_all_fail P _ _ _ w es Hfail). reflexivity.
Qed.

(** Five time-outs come out as a [RetryError] around the last one. *)
Lemma exhausted_retries_raise_RetryError_witness :
  fst (fetch_data failing_provider "aapl" "1y" "1d" init_world) =
    Raise (RetryError (ProviderError "timed out")) /\
  fst (get_cached_data failing_provider (keyword_call "aapl" "1y" "1d") init_world) =
    Raise (RetryError (ProviderError "timed out")).
Proof.
  destruct (exhausted_retries_raise_RetryError failing_provider "aapl" "1y" "1d"
              init_world (fun _ => ProviderError "timed out")) as [Hfetch Hget].
  - intros j Hj. reflexivity.
  - split.
    + rewrite Hfetch. reflexivity.
    + rewrite (Hget (keyword_call "aapl" "1y" "1d")) by reflexivity.
      rewrite Hfetch. reflexivity.
Defined.

(** C5 as stated fails: every download raises [ProviderError], and what
    the caller of [fetch_data] or [get_cached_data] sees is not that
    exception but a [RetryError]. *)
Lemma exhausted_retries_counterexample :
  (forall n q, yf_download failing_provider n q = Raise (ProviderError "timed out")) /\
  fst (fetch_data failing_provider "aapl" "1y" "1d" init_world) <>
    Raise (ProviderError "timed out") /\
  fst (get_cached_data failing_provider (positional_call "aapl" "1y" "1d") init_world) <>
    Raise (ProviderError "timed out").
Proof.
  split; [reflexivity|]. split; vm_compute; discriminate.
Qed.

Section EvictionFacts.

Variable P : Provider.

(** The world of a miss that returned. *)
Lemma get_cached_data_miss_ok : forall c w v w1,
  cache_get (make_key c) (cache w) = None ->
  get_cached_data P c w = (Ok v, w1) ->
  cache w1 = cache_store 128 (make_key c) v (cache w).
Proof.
  intros c w v w1 Hmiss Hrun.
  rewrite (get_cached_data_miss P _ _ Hmiss) in Hrun.
  pose proof (get_cached_data_body_keeps_cache P c w) as Hk.
  destruct (get_cached_data_body P c w) as [[v1|e] w2]; [|discriminate].
  injection Hrun as <- <-. simpl in Hk. unfold set_cache. simpl cache.
  rewrite Hk. reflexivity.
Qed.

(** The key of a call that returned is still there after the next call
    with another key has returned, hit or miss. *)
Lemma most_recent_survives : forall c c' w v w1 v' w2,
  get_cached_data P c w = (Ok v, w1) ->
  get_cached_data P c' w1 = (Ok v', w2) ->
  make_key c <> make_key c' ->
  cache_get (make_key c) (cache w2) = Some v /\
  cache_get (make_key c') (cache w2) = Some v'.
Proof.
  intros c c' w v w1 v' w2 Hrun Hrun' Hne.
  destruct (get_cached_data_front P _ _ _ _ Hrun) as [rest Hfront].
  destruct (get_cached_data_front P _ _ _ _ Hrun') as [rest' Hfront'].
  split.
  - destruct (cache_get (make_key c') (cache w1)) as [v0|] eqn:Hget.
    + rewrite (get_cached_data_hit P _ _ _ Hget) in Hrun'.
      injection Hrun' as <- <-. simpl cache.
      simpl. destruct (CacheKey_eq_dec (make_key c) (make_key c')); [contradiction|].
      rewrite cache_get_remove_other by assumption.
      rewrite Hfront. simpl.
      destruct (CacheKey_eq_dec (make_key c) (make_key c)); [reflexivity|congruence].
    + rewrite (get_cached_data_miss_ok _ _ _ _ Hget Hrun').
      destruct (le_lt_dec 128 (List.length (cache w1))) as [Hfull|Hroom].
      * rewrite cache_store_full by (assumption || lia).
        rewrite Hfront in *. destruct rest as [|r rest]; [simpl in Hfull; lia|].
        simpl. destruct (CacheKey_eq_dec (make_key c) (make_key c')); [contradiction|].
        destruct (CacheKey_eq_dec (make_key c) (make_key c)); [reflexivity|congruence].
      * rewrite cache_store_room by assumption.
        rewrite Hfront. simpl.
        destruct (CacheKey_eq_dec (make_key c) (make_key c')); [contradiction|].
        destruct (CacheKey_eq_dec (make_key c) (make_key c)); [reflexivity|congruence].
  - rewrite Hfront'. simpl.
    destruct (CacheKey_eq_dec (make_key c') (make_key c')); [reflexivity|congruence].
Qed.

(** A miss on a full cache that returns: the new entry in front, the last
    entry gone, every other entry where it was. *)
Lemma get_cached_data_evicts : forall c w v w1 old lru,
  NoDup (map fst (cache w)) ->
  cache w = old ++ [lru] ->
  (128 <= List.length (cache w))%nat ->
  cache_get (make_key c) (cache w) = None ->
  get_cached_data P c w = (Ok v, w1) ->
  cache w1 = (make_key c, v) :: old /\
  cache_get (fst lru) (cache w1) = None /\
  (forall k, k <> fst lru -> k <> make_key c ->
     cache_get k (cache w1) = cache_get k (cache w)).
Proof.
  intros c w v w1 old lru Hnd Hshape Hfull Hmiss Hrun.
  assert (Hw1 : cache w1 = (make_key c, v) :: old).
  { rewrite (get_cached_data_miss_ok _ _ _ _ Hmiss Hrun).
    rewrite cache_store_full by (assumption || lia).
    rewrite Hshape. rewrite removelast_last. reflexivity. }
  split; [exact Hw1|]. rewrite Hw1, Hshape. rewrite Hshape in Hmiss, Hnd. split.
  - simpl. destruct (CacheKey_eq_dec (fst lru) (make_key c)) as [E|_].
    + apply cache_get_None_iff in Hmiss. exfalso. apply Hmiss.
      rewrite map_app, in_app_iff. right. simpl. left. exact E.
    + apply cache_get_None_iff. rewrite map_app in Hnd. simpl in Hnd.
      apply NoDup_remove_2 in Hnd. rewrite app_nil_r in Hnd. exact Hnd.
  - intros k Hk Hkc. simpl.
    destruct (CacheKey_eq_dec k (make_key c)); [contradiction|].
    symmetry. apply cache_get_snoc_other. exact Hk.
Qed.

End EvictionFacts.

Lemma filled_world_reachable : forall n, reachable steady_provider (filled_world n).
Proof.
  induction n as [|n IH]; [apply reachable_init|].
  exact (reachable_step steady_provider
           (OpGetCachedData (positional_call (str_of_Z (Z.of_nat (S n))) "1y" "1d"))
           (filled_world n) IH).
Qed.

(** C3.  In every world of the process the cache holds at most 128 keys,
    each once.  A hit returns the stored frame and moves its key to the
    front, and so does every call that returns.  A miss on a cache of 128 keys that returns puts the new key in
    front and drops exactly the least recently used one, every other key
    keeping its frame.  A key that was touched before that miss is still
    resident after it. *)
Theorem lru_capacity_and_eviction : forall (P : Provider) (w : World),
  reachable P w ->
  (List.length (cache w) <= 128)%nat /\
  NoDup (map fst (cache w)) /\
  (forall c v,
     cache_get (make_key c) (cache w) = Some v ->
     get_cached_data P c w =
       (Ok v, set_cache w ((make_key c, v) :: cache_remove (make_key c) (cache w)))) /\
  (forall c v w1,
     get_cached_data P c w = (Ok v, w1) ->
     exists rest, cache w1 = (make_key c, v) :: rest) /\
  (forall c v w1 old lru,
     cache w = old ++ [lru] ->
     List.length (cache w) = 128%nat ->
     cache_get (make_key c) (cache w) = None ->
     get_cached_data P c w = (Ok v, w1) ->
     cache w1 = (make_key c, v) :: old /\
     List.length (cache w1) = 128%nat /\
     cache_get (fst lru) (cache w1) = None /\
     (forall k, k <> fst lru -> k <> make_key c ->
        cache_get k (cache w1) = cache_get k (cache w))) /\
  (forall c c' v v' w1 w2,
     List.length (cache w) = 128%nat ->
     cache_get (make_key c) (cache w) <> None ->
     get_cached_data P c w = (Ok v, w1) ->
     cache_get (make_key c') (cache w1) = None ->
     get_cached_data P c' w1 = (Ok v', w2) ->
     cache_get (make_key c) (cache w2) = Some v).
Proof.
  intros P w Hreach.
  destruct (reachable_cache_ok P w Hreach) as [Hnd Hlen].
  split; [exact Hlen|]. split; [exact Hnd|]. split; [|split; [|split]].
  - intros c v Hget. apply get_cached_data_hit. exact Hget.
  - intros c v w1 Hrun. apply (get_cached_data_front P c w v w1 Hrun).
  - intros c v w1 old lru Hshape Hfull Hmiss Hrun.
    destruct (get_cached_data_evicts P c w v w1 old lru Hnd Hshape
                ltac:(lia) Hmiss Hrun) as (Hw1 & Hgone & Hrest).
    split; [exact Hw1|]. split; [|split; assumption].
    rewrite Hw1. rewrite Hshape in Hfull. rewrite length_app in Hfull.
    simpl in *. lia.
  - intros c c' v v' w1 w2 _ _ Hrun Hmiss' Hrun'.
    apply (most_recent_survives P c c' w v w1 v' w2 Hrun Hrun').
    intros E. destruct (get_cached_data_front P _ _ _ _ Hrun) as [rest Hfront].
    rewrite Hfront, <- E in Hmiss'. simpl in Hmiss'.
    destruct (CacheKey_eq_dec (make_key c) (make_key c)); [discriminate|congruence].
Qed.

(** A cache filled by 128 misses on the symbols "1" to "128". *)
Lemma lru_capacity_and_eviction_witness :
  let w := filled_world 128 in
  let first := positional_call "1" "1y" "1d" in
  let second := positional_call "2" "1y" "1d" in
  let new := positional_call "129" "1y" "1d" in
  List.length (cache w) = 128%nat /\
  (* the 129th key drops the first one *)
  cache_get (make_key first) (cache (snd (get_cached_data steady_provider new w))) = None /\
  cache_get (make_key second) (cache (snd (get_cached_data steady_provider new w)))
    = Some sample_frame /\
  (* unless the first one was touched *)
  cache_get (make_key first)
    (cache (snd (get_cached_data steady_provider new
                   (snd (get_cached_data steady_provider first w))))) = Some sample_frame.
Proof.
  intros w first second new.
  destruct (lru_capacity_and_eviction steady_provider w (filled_world_reachable 128))
    as (_ & _ & _ & _ & Hevict & Hprotect).
  split; [vm_compute; reflexivity|].
  destruct (Hevict new sample_frame (snd (get_cached_data steady_provider new w))
              (removelast (cache w)) (make_key first, sample_frame))
    as (_ & _ & Hgone & Hrest).
  - vm_compute. reflexivity.
  - vm_compute. reflexivity.
  - vm_compute. reflexivity.
  - vm_compute. reflexivity.
  - split; [exact Hgone|]. split.
    + rewrite Hrest.
      * vm_compute. reflexivity.
      * vm_compute. discriminate.
      * vm_compute. discriminate.
    + apply (Hprotect first new sample_frame sample_frame
               (snd (get_cached_data steady_provider first w))
               (snd (get_cached_data steady_provider new
                       (snd (get_cached_data steady_provider first w))))).
      * vm_compute. reflexivity.
      * vm_compute. discriminate.
      * vm_compute. reflexivity.
      * vm_compute. reflexivity.
      * vm_compute. reflexivity.
Defined.

Section KeyFacts.

Lemma key_split : forall (a1 a2 : list string) (t1 t2 : CacheKey),
  (t1 = [] \/ exists r, t1 = KwdMark :: r) ->
  (t2 = [] \/ exists r, t2 = KwdMark :: r) ->
  map KVal a1 ++ t1 = map KVal a2 ++ t2 ->
  a1 = a2 /\ t1 = t2.
Proof.
  induction a1 as [|x a1 IH]; intros [|y a2] t1 t2 H1 H2 E; simpl in E.
  - split; [reflexivity|exact E].
  - exfalso. destruct H1 as [->|[r ->]]; discriminate.
  - exfalso. destruct H2 as [->|[r ->]]; discriminate.
  - injection E as -> E. destruct (IH a2 t1 t2 H1 H2 E) as [-> ->].
    split; reflexivity.
Qed.

Lemma kwds_items_inj : forall (k1 k2 : list (string * string)),
  flat_map (fun kv => [KVal (fst kv); KVal (snd kv)]) k1 =
  flat_map (fun kv => [KVal (fst kv); KVal (snd kv)]) k2 ->
  k1 = k2.
Proof.
  induction k1 as [|[a b] k1 IH]; intros [|[a' b'] k2] E; simpl in E;
    try discriminate; [reflexivity|].
  injection E as -> -> E. f_equal. apply IH. exact E.
Qed.

(** Two calls have the same key only when they are written the same way
    with the same values. *)
Lemma make_key_inj : forall c1 c2, make_key c1 = make_key c2 -> c1 = c2.
Proof.
  intros [a1 k1] [a2 k2]. unfold make_key. simpl. intros E.
  apply key_split in E.
  - destruct E as [-> E]. f_equal.
    destruct k1 as [|x k1], k2 as [|y k2]; try discriminate; [reflexivity|].
    apply kwds_items_inj. congruence.
  - destruct k1; [now left|right; eauto].
  - destruct k2; [now left|right; eauto].
Qed.

End KeyFacts.

Section MemoFacts.

Variable P : Provider.

(** While a key is resident a call with it downloads nothing. *)
Lemma resident_call_is_offline : forall c w,
  resident c w ->
  exists v, cache_get (make_key c) (cache w) = Some v /\
    fst (get_cached_data P c w) = Ok v /\
    downloads (snd (get_cached_data P c w)) = downloads w /\
    resident c (snd (get_cached_data P c w)).
Proof.
  intros c w Hres. unfold resident in *.
  destruct (cache_get (make_key c) (cache w)) as [v|] eqn:Hget; [|congruence].
  exists v. rewrite (get_cached_data_hit P _ _ _ Hget). simpl.
  repeat split.
  destruct (CacheKey_eq_dec (make_key c) (make_key c)); [discriminate|congruence].
Qed.

(** The same call made twice in a row: the second is served from the
    cache. *)
Lemma get_cached_data_twice : forall c w v w1,
  get_cached_data P c w = (Ok v, w1) ->
  fst (get_cached_data P c w1) = Ok v /\
  downloads (snd (get_cached_data P c w1)) = downloads w1.
Proof.
  intros c w v w1 Hrun.
  destruct (get_cached_data_front P _ _ _ _ Hrun) as [rest Hfront].
  assert (Hget : cache_get (make_key c) (cache w1) = Some v).
  { rewrite Hfront. simpl.
    destruct (CacheKey_eq_dec (make_key c) (make_key c)); [reflexivity|congruence]. }
  rewrite (get_cached_data_hit P _ _ _ Hget). split; reflexivity.
Qed.

End MemoFacts.




(** C1 fails on the module's own start-up.  [candlestick_chart] asks for
    ("aapl", "1y", "1d") with positional arguments and [prediction_chart]
    asks for the same three values with keywords; the second call is a
    miss although the entry of the first is resident, and the same data is
    downloaded twice. *)
Theorem startup_downloads_twice :
  let q := ("aapl", "1y", "1d") in
  let w1 := snd (candlestick_chart steady_provider "aapl" "1y" "1d" 10 init_world) in
  let w2 := snd (prediction_chart steady_provider "aapl" 10 w1) in
  bind_get_cached_data (positional_call "aapl" "1y" "1d") = Ok q /\
  bind_get_cached_data (keyword_call "aapl" "1y" "1d") = Ok q /\
  downloads w1 = [q] /\
  cache_get (make_key (positional_call "aapl" "1y" "1d")) (cache w1) = Some sample_frame /\
  downloads w2 = [q; q] /\
  cache_get (make_key (positional_call "aapl" "1y" "1d")) (cache w2) = Some sample_frame /\
  downloads (snd (startup steady_provider init_world)) = [q; q].
Proof.
  cbv zeta. repeat split.
Qed.

Section ChartFacts.

Lemma range_length : forall lo hi, List.length (range lo hi) = Z.to_nat (hi - lo).
Proof.
  intros lo hi. unfold range. rewrite length_map, length_seq. reflexivity.
Qed.

Lemma range_nth : forall lo hi i,
  lo <= i < hi -> nth_error (range lo hi) (Z.to_nat (i - lo)) = Some i.
Proof.
  intros lo hi i Hi. unfold range.
  rewrite nth_error_map.
  rewrite (nth_error_nth' _ 0%nat) by (rewrite length_seq; lia).
  rewrite seq_nth by lia. simpl. f_equal. lia.
Qed.

Lemma index_at_iloc : forall data i b, iloc data i = Ok b -> index_at data i = Ok (Date b).
Proof.
  intros data i b H. unfold index_at. rewrite H. reflexivity.
Qed.

Lemma range_In : forall lo hi i, In i (range lo hi) -> lo <= i < hi.
Proof.
  intros lo hi i H. unfold range in H. apply in_map_iff in H.
  destruct H as (k & <- & Hk). apply in_seq in Hk. lia.
Qed.

Lemma comprehension_ok : forall (A B : Type) (f : A -> result B) (g : A -> B) (l : list A),
  (forall x, In x l -> f x = Ok (g x)) -> comprehension f l = Ok (map g l).
Proof.
  intros A B f g l. induction l as [|x l IH]; intros H; simpl; [reflexivity|].
  rewrite (H x) by (now left). rewrite IH; [reflexivity|].
  intros y Hy. apply H. now right.
Qed.

(** The i-th day after a date is a [Timestamp] when the n-th is, for a
    horizon pandas can hold as a [Timedelta]. *)
Lemma prediction_date_ok : forall (t : Timestamp) (i n : Z),
  1 <= i <= n -> n <= 106751 ->
  Timestamp_min <= t -> t + n * nanoseconds_per_day <= Timestamp_max ->
  match timedelta_days i with
  | Ok days => Timestamp_add t days
  | Raise e => Raise e
  end = Ok (t + i * nanoseconds_per_day).
Proof.
  intros t i n Hi Hn Hmin Hmax.
  assert (H1 : (Z.abs i <=? 999999999) = true) by (apply Z.leb_le; lia).
  assert (H2 : (Z.abs (i * nanoseconds_per_day) <=? int64_max) = true).
  { apply Z.leb_le. unfold nanoseconds_per_day, int64_max. lia. }
  assert (H3 : (Timestamp_min <=? t + i * nanoseconds_per_day) = true).
  { apply Z.leb_le. unfold nanoseconds_per_day in *. lia. }
  assert (H4 : (t + i * nanoseconds_per_day <=? Timestamp_max) = true).
  { apply Z.leb_le. unfold nanoseconds_per_day in *. lia. }
  unfold timedelta_days. rewrite H1. unfold Timestamp_add. cbv zeta.
  rewrite H2, H3, H4. reflexivity.
Qed.

Lemma comprehension_raises : forall (A B : Type) (f : A -> result B) (g : A -> B)
    (l1 : list A) (x : A) (l2 : list A) (e : exn),
  (forall y, In y l1 -> f y = Ok (g y)) -> f x = Raise e ->
  comprehension f (l1 ++ x :: l2) = Raise e.
Proof.
  intros A B f g l1 x l2 e. induction l1 as [|y l1 IH]; intros Hok Hx; simpl.
  - rewrite Hx. reflexivity.
  - rewrite (Hok y) by (now left). rewrite IH; [reflexivity| |exact Hx].
    intros z Hz. apply Hok. now right.
Qed.

Lemma map_seq_offset : forall (f : nat -> Z) (b a : nat),
  map f (seq a b) = map (fun k => f (a + k)%nat) (seq 0 b).
Proof.
  intros f b. revert f. induction b as [|b IH]; intros f a; [reflexivity|].
  simpl seq. simpl map. rewrite Nat.add_0_r. f_equal.
  rewrite (IH f (S a)). rewrite (IH (fun k => f (a + k)%nat) 1%nat).
  apply map_ext. intros k. f_equal. lia.
Qed.

Lemma range_split : forall lo mid hi,
  lo <= mid < hi -> range lo hi = range lo mid ++ mid :: range (mid + 1) hi.
Proof.
  intros lo mid hi H. unfold range.
  replace (Z.to_nat (hi - lo))
    with (Z.to_nat (mid - lo) + S (Z.to_nat (hi - (mid + 1))))%nat by lia.
  rewrite seq_app, map_app. f_equal.
  rewrite map_seq_offset. simpl seq. simpl map. f_equal.
  - lia.
  - rewrite seq_shift_map. apply map_ext. intros k. lia.
Qed.

(** The first day past the last [Timestamp] ends the computation of the
    dates. *)
Lemma prediction_dates_out_of_bounds : forall (t : Timestamp) (n : Z),
  Timestamp_min <= t <= Timestamp_max -> 1 <= n <= 106751 ->
  Timestamp_max < t + n * nanoseconds_per_day ->
  comprehension
    (fun i =>
       match timedelta_days i with
       | Ok days => Timestamp_add t days
       | Raise e => Raise e
       end)
    (range 1 (n + 1)) = Raise OutOfBoundsDatetime.
Proof.
  intros t n Ht Hn Hover.
  set (i0 := (Timestamp_max - t) / nanoseconds_per_day + 1).
  assert (HD : 0 < nanoseconds_per_day) by (unfold nanoseconds_per_day; lia).
  pose proof (Z.div_mod (Timestamp_max - t) nanoseconds_per_day ltac:(lia)) as Hdm.
  pose proof (Z.mod_pos_bound (Timestamp_max - t) nanoseconds_per_day HD) as Hmod.
  assert (Hq : 0 <= (Timestamp_max - t) / nanoseconds_per_day)
    by (apply Z.div_pos; lia).
  assert (Hlow : t + (i0 - 1) * nanoseconds_per_day <= Timestamp_max)
    by (unfold i0; nia).
  assert (Hhigh : Timestamp_max < t + i0 * nanoseconds_per_day)
    by (unfold i0; nia).
  assert (Hi0 : 1 <= i0 <= n) by (unfold i0; nia).
  rewrite (range_split 1 i0 (n + 1)) by lia.
  apply (comprehension_raises _ _ _ (fun i => t + i * nanoseconds_per_day)).
  - intros i Hi. apply range_In in Hi.
    apply (prediction_date_ok t i (i0 - 1)); lia.
  - unfold timedelta_days.
    assert (H1 : (Z.abs i0 <=? 999999999) = true) by (apply Z.leb_le; lia).
    rewrite H1. unfold Timestamp_add. cbv zeta.
    assert (H2 : (Z.abs (i0 * nanoseconds_per_day) <=? int64_max) = true).
    { apply Z.leb_le. unfold nanoseconds_per_day, int64_max. lia. }
    assert (H4 : (t + i0 * nanoseconds_per_day <=? Timestamp_max) = false)
      by (apply Z.leb_gt; lia).
    rewrite H2, H4, andb_false_r. reflexivity.
Qed.

End ChartFacts.

(** A horizon whose last day is past the last [Timestamp]: the chart is
    not drawn. *)
Lemma prediction_chart_out_of_bounds : forall (P : Provider) (symbol : string) (n : Z)
    (w w1 : World) (data : DataFrame) (last : Bar),
  get_cached_data P (keyword_call symbol "1y" "1d") w = (Ok data, w1) ->
  iloc data (-1) = Ok last ->
  Timestamp_min <= Date last <= Timestamp_max ->
  1 <= n <= 106751 ->
  Timestamp_max < Date last + n * nanoseconds_per_day ->
  prediction_chart P symbol n w = (Raise OutOfBoundsDatetime, w1).
Proof.
  intros P symbol n w w1 data last Hget Hlast Ht Hn Hover.
  unfold prediction_chart, bind. unfold keyword_call in Hget. rewrite Hget.
  unfold lift. rewrite (index_at_iloc _ _ _ Hlast).
  rewrite (prediction_dates_out_of_bounds (Date last) n Ht Hn Hover). reflexivity.
Qed.

(** C6, amended.  When the cached series for the symbol ends in a bar
    [last], the horizon [n] is at least 1 and at most 106751 days, and the
    n-th day after the date of [last] is still a [Timestamp], the second
    trace of the chart has, for i = 1 .. n, the date of [last] plus i days
    and its close plus i. *)
Theorem prediction_chart_projection : forall (P : Provider) (symbol : string) (n : Z)
    (w w1 : World) (data : DataFrame) (last : Bar),
  1 <= n ->
  n <= 106751 ->
  get_cached_data P (keyword_call symbol "1y" "1d") w = (Ok data, w1) ->
  iloc data (-1) = Ok last ->
  Timestamp_min <= Date last ->
  Date last + n * nanoseconds_per_day <= Timestamp_max ->
  exists actual layout,
    prediction_chart P symbol n w =
      (Ok (mkFigure
             [actual;
              (Scatter (map (fun i => Date last + i * nanoseconds_per_day) (range 1 (n + 1)))
                 (map (fun i => (Close last + float_of_Z i)%float) (range 1 (n + 1)))
                 "lines" (Some "Predicted Prices") (Some "green") true, None)]
             layout), w1) /\
    List.length (range 1 (n + 1)) = Z.to_nat n /\
    (forall i, 1 <= i <= n -> nth_error (range 1 (n + 1)) (Z.to_nat (i - 1)) = Some i).
Proof.
  intros P symbol n w w1 data last Hn Hdays Hget Hlast Hmin Hmax.
  unfold prediction_chart, bind. unfold keyword_call in Hget. rewrite Hget.
  unfold lift. rewrite (index_at_iloc _ _ _ Hlast).
  rewrite (comprehension_ok _ _ _ (fun i => Date last + i * nanoseconds_per_day)).
  - rewrite Hlast. unfold ret.
    eexists. eexists. split; [reflexivity|]. split.
    + rewrite range_length. f_equal. lia.
    + intros i Hi. apply range_nth. lia.
  - intros i Hi. apply range_In in Hi.
    apply (prediction_date_ok (Date last) i n); assumption || lia.
Qed.

(** Last close 100.0 and horizon 3: 101.0, 102.0 and 103.0 on the three
    days after the last bar. *)
Lemma prediction_chart_projection_witness :
  exists actual layout,
    prediction_chart steady_provider "aapl" 3 init_world =
      (Ok (mkFigure
             [actual;
              (Scatter [1700172800000000000; 1700259200000000000; 1700345600000000000]
                 [101%float; 102%float; 103%float]
                 "lines" (Some "Predicted Prices") (Some "green") true, None)]
             layout),
       snd (get_cached_data steady_provider (keyword_call "aapl" "1y" "1d") init_world)).
Proof.
  destruct (prediction_chart_projection steady_provider "aapl" 3 init_world
              (snd (get_cached_data steady_provider (keyword_call "aapl" "1y" "1d")
                      init_world))
              sample_frame
              (mkBar 1700086400000000000 99 101 98.5 100 1200))
    as (actual & layout & Hrun & _).
  - lia.
  - lia.
  - reflexivity.
  - reflexivity.
  - vm_compute. discriminate.
  - vm_compute. discriminate.
  - exists actual, layout. exact Hrun.
Defined.

(** C6 as stated fails for a horizon that leaves the range of pandas'
    nanosecond timestamps: the last bar of the sample is of 2023-11-15 and
    closes at 100.0, its 87075th day after is the last one before
    2262-04-11 23:47:16, and with horizon 87076 the chart is not drawn but
    [OutOfBoundsDatetime] is raised; on a frame that ends on the last
    representable day so does horizon 1. *)
Lemma prediction_chart_projection_counterexample :
  iloc sample_frame (-1) = Ok (mkBar 1700086400000000000 99 101 98.5 100 1200) /\
  1 <= 87076 /\
  fst (prediction_chart steady_provider "aapl" 87076 init_world) = Raise OutOfBoundsDatetime /\
  fst (prediction_chart
         (mkProvider
            (fun _ _ => Ok (mkFrame (Some "Date") [mkBar 9223300000000000000 1 1 1 100 0]))
            (fun _ _ => Ok []))
         "aapl" 1 init_world) = Raise OutOfBoundsDatetime.
Proof.
  split; [reflexivity|]. split; [lia|]. split.
  - rewrite (prediction_chart_out_of_bounds steady_provider "aapl" 87076 init_world
               (snd (get_cached_data steady_provider (keyword_call "aapl" "1y" "1d")
                       init_world))
               sample_frame (mkBar 1700086400000000000 99 101 98.5 100 1200)).
    + reflexivity.
    + reflexivity.
    + reflexivity.
    + unfold Timestamp_min, Timestamp_max, int64_max. simpl Date. lia.
    + lia.
    + unfold Timestamp_max, int64_max, nanoseconds_per_day. simpl Date. lia.
  - vm_compute. reflexivity.
Qed.

(** C7.  [update_charts] always returns.  When a step of its [try] block
    raises, whatever the exception, it returns three empty figures and
    nothing of the exception; this is what happens for a horizon [int()]
    rejects, such as "abc". *)
Theorem update_charts_never_raises : forall (P : Provider) (symbol : string)
    (prediction_days : pyval) (w : World),
  (exists figs w1, update_charts P symbol prediction_days w = (Ok figs, w1)) /\
  (forall e w1,
     update_charts_try P symbol prediction_days w = (Raise e, w1) ->
     update_charts P symbol prediction_days w = (Ok (go_Figure, go_Figure, go_Figure), w1)) /\
  (forall e,
     py_int prediction_days = Raise e ->
     update_charts P symbol prediction_days w = (Ok (go_Figure, go_Figure, go_Figure), w)) /\
  update_charts P symbol (PyStr "abc") w = (Ok (go_Figure, go_Figure, go_Figure), w) /\
  go_Figure = mkFigure [] [].
Proof.
  intros P symbol prediction_days w. split; [|split; [|split; [|split]]].
  - unfold update_charts, try_except.
    destruct (update_charts_try P symbol prediction_days w) as [[figs|e] w1].
    + exists figs, w1. reflexivity.
    + exists (go_Figure, go_Figure, go_Figure), w1. reflexivity.
  - intros e w1 H. unfold update_charts, try_except. rewrite H. reflexivity.
  - intros e H. unfold update_charts, try_except, update_charts_try, bind, lift.
    rewrite H. reflexivity.
  - reflexivity.
  - reflexivity.
Qed.

(** The horizon "abc", and a symbol the provider has no data for. *)
Lemma update_charts_never_raises_witness :
  py_int (PyStr "abc") = Raise (ValueError "invalid literal for int() with base 10") /\
  update_charts steady_provider "aapl" (PyStr "abc") init_world =
    (Ok (go_Figure, go_Figure, go_Figure), init_world) /\
  fst (update_charts_try unknown_symbol_provider "zzzz" (PyInt 3) init_world) =
    Raise (IndexError "single positional indexer is out-of-bounds") /\
  fst (update_charts unknown_symbol_provider "zzzz" (PyInt 3) init_world) =
    Ok (go_Figure, go_Figure, go_Figure).
Proof.
  destruct (update_charts_never_raises steady_provider "aapl" (PyStr "abc") init_world)
    as (_ & _ & Hint & _).
  destruct (update_charts_never_raises unknown_symbol_provider "zzzz" (PyInt 3) init_world)
    as (_ & Hstep & _).
  split; [reflexivity|]. split; [apply (Hint _ eq_refl)|]. split; [reflexivity|].
  rewrite (Hstep (IndexError "single positional indexer is out-of-bounds")
             (snd (update_charts_try unknown_symbol_provider "zzzz" (PyInt 3) init_world)));
    reflexivity.
Defined.

(** C8, amended.  When the quote snapshot has 'regularMarketPrice', or the
    snapshot lookup raises, [price_indicator] neither reads nor writes the
    cache and downloads nothing: its result is the same whatever the cache
    holds and the cache comes out as it went in.  When the snapshot has no
    'regularMarketPrice' the prices come from
    [get_cached_data(symbol, period="1d", interval="1d")]. *)
Theorem price_indicator_cache_use : forall (P : Provider) (symbol : string) (w : World),
  (forall info,
     yf_ticker_info P (List.length (info_calls w)) symbol = Ok info ->
     contains info "regularMarketPrice" = true ->
     cache (snd (price_indicator P symbol w)) = cache w /\
     downloads (snd (price_indicator P symbol w)) = downloads w /\
     forall c',
       price_indicator P symbol (set_cache w c') =
         (fst (price_indicator P symbol w), set_cache (snd (price_indicator P symbol w)) c')) /\
  (forall e,
     yf_ticker_info P (List.length (info_calls w)) symbol = Raise e ->
     cache (snd (price_indicator P symbol w)) = cache w /\
     downloads (snd (price_indicator P symbol w)) = downloads w /\
     forall c',
       price_indicator P symbol (set_cache w c') =
         (fst (price_indicator P symbol w), set_cache (snd (price_indicator P symbol w)) c')) /\
  (forall info,
     yf_ticker_info P (List.length (info_calls w)) symbol = Ok info ->
     contains info "regularMarketPrice" = false ->
     snd (price_indicator P symbol w) =
       snd (get_cached_data P (keyword_call symbol "1d" "1d") (snd (ticker_info P symbol w)))).
Proof.
  intros P symbol w. split; [|split].
  - intros info Hinfo Hprice.
    assert (Hrun : forall c0,
      price_indicator P symbol (set_cache w c0) =
      (fst (price_indicator P symbol w),
       mkWorld c0 (downloads w) (sleeps w) (info_calls w ++ [symbol]))).
    { intros c0. unfold price_indicator, bind, ticker_info. simpl.
      rewrite Hinfo, Hprice. unfold lift.
      destruct (getitem info "regularMarketOpen");
        destruct (getitem info "regularMarketPrice"); reflexivity. }
    assert (Hw : set_cache w (cache w) = w) by (destruct w; reflexivity).
    pose proof (Hrun (cache w)) as H0. rewrite Hw in H0.
    split; [rewrite H0; reflexivity|]. split; [rewrite H0; reflexivity|].
    intros c'. rewrite Hrun, H0. reflexivity.
  - intros e Hinfo.
    assert (Hrun : forall c0,
      price_indicator P symbol (set_cache w c0) =
      (Raise e, mkWorld c0 (downloads w) (sleeps w) (info_calls w ++ [symbol]))).
    { intros c0. unfold price_indicator, bind, ticker_info. simpl.
      rewrite Hinfo. reflexivity. }
    assert (Hw : set_cache w (cache w) = w) by (destruct w; reflexivity).
    pose proof (Hrun (cache w)) as H0. rewrite Hw in H0.
    split; [rewrite H0; reflexivity|]. split; [rewrite H0; reflexivity|].
    intros c'. rewrite Hrun, H0. reflexivity.
  - intros info Hinfo Hprice.
    unfold price_indicator, bind at 1. unfold ticker_info.
    rewrite Hinfo, Hprice. simpl snd. unfold keyword_call, bind, lift, ret.
    match goal with
    | |- context [get_cached_data P ?c ?w0] => destruct (get_cached_data P c w0) as [[data|e] w1]
    end; [|reflexivity].
    destruct (iloc data 0); [|reflexivity].
    destruct (iloc data (-1)); reflexivity.
Qed.

(** A snapshot with a price leaves a cache of two entries alone; a
    snapshot without one puts the daily bars of the symbol in the cache. *)
Lemma price_indicator_cache_use_witness :
  cache (snd (price_indicator steady_provider "aapl" (filled_world 2))) = cache (filled_world 2) /\
  downloads (snd (price_indicator steady_provider "aapl" (filled_world 2)))
    = downloads (filled_world 2) /\
  fst (price_indicator steady_provider "aapl" (set_cache (filled_world 2) []))
    = fst (price_indicator steady_provider "aapl" (filled_world 2)) /\
  cache (snd (price_indicator no_quote_provider "aapl" init_world)) =
    [(make_key (keyword_call "aapl" "1d" "1d"), sample_frame)].
Proof.
  destruct (price_indicator_cache_use steady_provider "aapl" (filled_world 2))
    as (Hquote & _ & _).
  destruct (Hquote sample_info eq_refl eq_refl) as (Hcache & Hlog & Hframe).
  destruct (price_indicator_cache_use no_quote_provider "aapl" init_world)
    as (_ & _ & Hfallback).
  split; [exact Hcache|]. split; [exact Hlog|]. split.
  - rewrite (Hframe []). reflexivity.
  - rewrite (Hfallback [] eq_refl eq_refl). reflexivity.
Defined.

(** C8 as stated fails: with a quote snapshot that has no price the
    indicator downloads through the cached function and leaves an entry in
    the cache, and what it shows comes from the cache when the key is
    there. *)
Lemma price_indicator_counterexample :
  yf_ticker_info no_quote_provider 0 "aapl" = Ok [] /\
  cache (snd (price_indicator no_quote_provider "aapl" init_world)) <> cache init_world /\
  downloads (snd (price_indicator no_quote_provider "aapl" init_world)) = [("aapl", "1d", "1d")] /\
  (let cached := [(make_key (keyword_call "aapl" "1d" "1d"),
                   mkFrame (Some "Date") [mkBar 0 1 1 1 2 0])] in
   fst (price_indicator no_quote_provider "aapl" (set_cache init_world cached)) <>
     fst (price_indicator no_quote_provider "aapl" init_world) /\
   downloads (snd (price_indicator no_quote_provider "aapl" (set_cache init_world cached))) = []).
Proof.
  split; [reflexivity|]. split; [vm_compute; discriminate|]. split; [reflexivity|].
  cbv zeta. split; [vm_compute; discriminate|reflexivity].
Qed.

(** C10.  [candlestick_chart] does not look at [prediction_days]: two
    calls that differ only there give the same figure and the same world. *)
Theorem candlestick_chart_ignores_prediction_days : forall (P : Provider)
    (symbol period interval : string) (d1 d2 : Z) (w : World),
  candlestick_chart P symbol period interval d1 w =
  candlestick_chart P symbol period interval d2 w.
Proof.
  intros P symbol period interval d1 d2 w. reflexivity.
Qed.

(** * Further properties of the program *)

Section InvariantFacts.

Variable P : Provider.

Lemma preserves_ret : forall (A : Type) (I : World -> Prop) (a : A), preserves I (ret a).
Proof. intros A I a w H. exact H. Qed.

Lemma preserves_lift : forall (A : Type) (I : World -> Prop) (r : result A),
  preserves I (lift r).
Proof. intros A I r w H. exact H. Qed.

Lemma preserves_bind : forall (A B : Type) (I : World -> Prop) (m : M A) (k : A -> M B),
  preserves I m -> (forall a, preserves I (k a)) -> preserves I (bind m k).
Proof.
  intros A B I m k Hm Hk w Hw. unfold bind.
  specialize (Hm w Hw). destruct (m w) as [[a|e] w1]; simpl in *.
  - apply Hk. exact Hm.
  - exact Hm.
Qed.

Lemma preserves_try_except : forall (A : Type) (I : World -> Prop) (m : M A)
    (h : exn -> M A),
  preserves I m -> (forall e, preserves I (h e)) -> preserves I (try_except m h).
Proof.
  intros A I m h Hm Hh w Hw. unfold try_except.
  specialize (Hm w Hw). destruct (m w) as [[a|e] w1]; simpl in *.
  - exact Hm.
  - apply Hh. exact Hm.
Qed.

Lemma cache_get_Some_In_pair : forall k c v, cache_get k c = Some v -> In (k, v) c.
Proof.
  intros k c. induction c as [|[k0 v0] c IH]; intros v H; simpl in *.
  - discriminate.
  - destruct (CacheKey_eq_dec k k0) as [->|Hne].
    + injection H as ->. now left.
    + right. apply IH. exact H.
Qed.

Lemma cache_remove_incl : forall k c x, In x (cache_remove k c) -> In x c.
Proof.
  intros k c. induction c as [|[k0 v0] c IH]; intros x H; simpl in *.
  - exact H.
  - destruct (CacheKey_eq_dec k k0).
    + right. apply IH. exact H.
    + destruct H as [H|H]; [now left|right; apply IH; exact H].
Qed.

Lemma cache_store_incl : forall n k v c x,
  In x (cache_store n k v c) -> x = (k, v) \/ In x c.
Proof.
  intros n k v c x H. unfold cache_store in H.
  destruct n as [|n]; [now right|].
  destruct (cache_get k c); [now right|].
  destruct (S n <=? List.length c)%nat; destruct H as [H|H]; auto.
  right. apply removelast_incl. exact H.
Qed.

(** A world with the same cache and a longer download log has only
    answered entries if the shorter one had. *)
Lemma answered_extend : forall w w' d,
  answered P w -> cache w' = cache w -> downloads w' = downloads w ++ d ->
  answered P w'.
Proof.
  intros w w' d Hw Hc Hd k v HIn. rewrite Hc in HIn.
  destruct (Hw k v HIn) as (c & q & n & Hk & Hb & Hn & Hv).
  exists c, q, n. repeat split; try assumption.
  rewrite Hd. rewrite nth_error_app1; [exact Hn|].
  apply nth_error_Some. congruence.
Qed.

(** A returned value of the retry loop is the provider's answer to one of
    the attempts, and that attempt is the last one made. *)
Lemma retrying_ok_inv : forall (wait : Z -> Z) (q : Query) (n : nat) (a : Z)
    (w w1 : World) (v : DataFrame),
  retrying wait n a (data <- download P q ;; ret data) w = (Ok v, w1) ->
  exists k, (k <= n)%nat /\
    yf_download P (List.length (downloads w) + k) q = Ok v /\
    w1 = mkWorld (cache w) (downloads w ++ repeat q (S k))
           (sleeps w ++ waits_up_to wait a k) (info_calls w).
Proof.
  intros wait q n. induction n as [|n IH]; intros a w w1 v H.
  - simpl in H. unfold bind, download in H.
    destruct (yf_download P (List.length (downloads w)) q) as [df|e] eqn:E;
      [|discriminate].
    unfold ret in H. injection H as <- <-. exists 0%nat.
    rewrite Nat.add_0_r. unfold waits_up_to. simpl. rewrite app_nil_r. auto.
  - simpl in H. unfold bind at 1 in H. unfold download at 1 in H.
    destruct (yf_download P (List.length (downloads w)) q) as [df|e] eqn:E.
    + unfold ret in H. injection H as <- <-. exists 0%nat.
      rewrite Nat.add_0_r. unfold waits_up_to. simpl. rewrite app_nil_r.
      split; [lia|auto].
    + apply IH in H. destruct H as (k & Hk & Hv & Hw1).
      exists (S k). split; [lia|]. simpl downloads in Hv. rewrite length_app in Hv.
      simpl in Hv. split.
      * replace (List.length (downloads w) + S k)%nat
          with (List.length (downloads w) + 1 + k)%nat by lia. exact Hv.
      * rewrite Hw1. simpl cache. simpl downloads. simpl sleeps. simpl info_calls.
        rewrite repeat_snoc. rewrite waits_up_to_S. rewrite <- app_assoc. reflexivity.
Qed.

Lemma fetch_data_ok_inv : forall symbol period interval w w1 v,
  fetch_data P symbol period interval w = (Ok v, w1) ->
  exists k, (k < 5)%nat /\
    yf_download P (List.length (downloads w) + k) (symbol, period, interval) = Ok v /\
    w1 = mkWorld (cache w) (downloads w ++ repeat (symbol, period, interval) (S k))
           (sleeps w ++ waits_up_to (wait_exponential 1 4 60) 1 k) (info_calls w).
Proof.
  intros symbol period interval w w1 v H. unfold fetch_data, retry in H.
  change (Z.to_nat (5 - 1)) with 4%nat in H.
  apply retrying_ok_inv in H. destruct H as (k & Hk & Hv & Hw1).
  exists k. split; [lia|auto].
Qed.

Lemma nth_error_snoc_repeat : forall (q : Query) (l : list Query) (k : nat),
  nth_error (l ++ repeat q (S k)) (List.length l + k) = Some q.
Proof.
  intros q l k. rewrite nth_error_app2 by lia.
  replace (List.length l + k - List.length l)%nat with k by lia.
  apply nth_error_repeat. lia.
Qed.

Lemma get_cached_data_answered : forall c, preserves (answered P) (get_cached_data P c).
Proof.
  intros c w Hw.
  destruct (cache_get (make_key c) (cache w)) as [v0|] eqn:Hget.
  - rewrite (get_cached_data_hit P _ _ _ Hget). simpl snd.
    intros k v HIn. simpl in HIn. destruct HIn as [E|HIn].
    + injection E as <- <-. apply Hw. apply cache_get_Some_In_pair. exact Hget.
    + apply Hw. apply (cache_remove_incl _ _ _ HIn).
  - rewrite (get_cached_data_miss P _ _ Hget).
    unfold get_cached_data_body, bind, lift.
    destruct (bind_get_cached_data c) as [[[symbol period] interval]|e] eqn:Hb;
      [|exact Hw].
    destruct (fetch_data P symbol period interval w) as [[v|e] w1] eqn:Hf.
    + destruct (fetch_data_ok_inv _ _ _ _ _ _ Hf) as (k & Hk & Hv & Hw1).
      simpl snd. intros k' v' HIn. unfold set_cache in HIn. simpl cache in HIn.
      apply cache_store_incl in HIn. simpl downloads. rewrite Hw1. simpl downloads.
      rewrite Hw1 in HIn. simpl cache in HIn. destruct HIn as [E|HIn].
      * injection E as -> ->.
        exists c, (symbol, period, interval), (List.length (downloads w) + k)%nat.
        split; [reflexivity|]. split; [exact Hb|].
        split; [apply nth_error_snoc_repeat|exact Hv].
      * destruct (Hw k' v' HIn) as (c' & q & n & Hk' & Hb' & Hn & Hv').
        exists c', q, n. repeat split; try assumption.
        rewrite nth_error_app1; [exact Hn|]. apply nth_error_Some. congruence.
    + simpl snd.
      destruct (fetch_data_shape P symbol period interval w) as (m & _ & Hs).
      rewrite Hf in Hs. simpl in Hs.
      apply (answered_extend w w1 (repeat (symbol, period, interval) m) Hw);
        rewrite Hs; reflexivity.
Qed.

Lemma ticker_info_answered : forall symbol, preserves (answered P) (ticker_info P symbol).
Proof.
  intros symbol w Hw. apply (answered_extend w _ [] Hw); simpl.
  - reflexivity.
  - rewrite app_nil_r. reflexivity.
Qed.

Ltac preserves_steps :=
  repeat first
    [ apply preserves_bind; [|intros ?]
    | apply preserves_ret
    | apply preserves_lift
    | apply get_cached_data_answered
    | apply ticker_info_answered
    | match goal with |- preserves _ (if ?b then _ else _) => destruct b end ].

Lemma price_indicator_answered : forall symbol,
  preserves (answered P) (price_indicator P symbol).
Proof. intros symbol. unfold price_indicator. preserves_steps. Qed.

Lemma candlestick_chart_answered : forall symbol period interval d,
  preserves (answered P) (candlestick_chart P symbol period interval d).
Proof. intros. unfold candlestick_chart. preserves_steps. Qed.

Lemma prediction_chart_answered : forall symbol d,
  preserves (answered P) (prediction_chart P symbol d).
Proof. intros. unfold prediction_chart. preserves_steps. Qed.

Lemma startup_answered : preserves (answered P) (startup P).
Proof.
  unfold startup.
  apply preserves_bind; [apply candlestick_chart_answered|intros ?].
  apply preserves_bind; [apply price_indicator_answered|intros ?].
  apply preserves_bind; [apply prediction_chart_answered|intros ?].
  apply preserves_ret.
Qed.

Lemma update_charts_answered : forall symbol d,
  preserves (answered P) (update_charts P symbol d).
Proof.
  intros symbol d. unfold update_charts, update_charts_try.
  apply preserves_try_except; [|intros ?; apply preserves_ret].
  apply preserves_bind; [apply preserves_lift|intros ?].
  apply preserves_bind; [apply price_indicator_answered|intros ?].
  apply preserves_bind; [apply candlestick_chart_answered|intros ?].
  apply preserves_bind; [apply prediction_chart_answered|intros ?].
  apply preserves_ret.
Qed.

Lemma reachable_answered : forall w, reachable P w -> answered P w.
Proof.
  intros w H. induction H as [|o w H IH].
  - intros k v HIn. destruct HIn.
  - destruct o; simpl.
    + apply startup_answered; assumption.
    + apply update_charts_answered; assumption.
    + apply price_indicator_answered; assumption.
    + apply candlestick_chart_answered; assumption.
    + apply prediction_chart_answered; assumption.
    + apply get_cached_data_answered; assumption.
Qed.

End InvariantFacts.

Section CostFacts.

Variable P : Provider.

Lemma total_app : forall l l', total (l ++ l') = total l + total l'.
Proof.
  intros l l'. unfold total. induction l as [|x l IH]; simpl; [reflexivity|].
  rewrite IH. lia.
Qed.

Lemma policy_total : forall m : nat,
  (m <= 4)%nat -> 0 <= total (waits_up_to (wait_exponential 1 4 60) 1 m) <= 20.
Proof.
  intros m Hm.
  destruct m as [|[|[|[|[|m]]]]]; try (vm_compute; split; discriminate). lia.
Qed.

Lemma costs_weaken : forall (A : Type) (m : M A) a b a' b',
  costs m a b -> (a <= a')%nat -> b <= b' -> costs m a' b'.
Proof.
  intros A m a b a' b' H Ha Hb w. destruct (H w) as (d & s & Hd & Hs & Hl & Ht).
  exists d, s. repeat split; try assumption; lia.
Qed.

Lemma costs_ret : forall (A : Type) (a : A), costs (ret a) 0 0.
Proof.
  intros A a w. exists [], []. simpl. rewrite !app_nil_r. repeat split; simpl; lia.
Qed.

Lemma costs_lift : forall (A : Type) (r : result A), costs (lift r) 0 0.
Proof.
  intros A r w. exists [], []. simpl. rewrite !app_nil_r. repeat split; simpl; lia.
Qed.

Lemma costs_bind : forall (A B : Type) (m : M A) (k : A -> M B) a b a' b',
  costs m a b -> 0 <= b' -> (forall x, costs (k x) a' b') ->
  costs (bind m k) (a + a') (b + b').
Proof.
  intros A B m k a b a' b' Hm Hb' Hk w. unfold bind.
  destruct (Hm w) as (d & s & Hd & Hs & Hl & Ht).
  destruct (m w) as [[x|e] w1]; simpl in *.
  - destruct (Hk x w1) as (d' & s' & Hd' & Hs' & Hl' & Ht').
    exists (d ++ d'), (s ++ s'). rewrite Hd', Hs', Hd, Hs, !app_assoc.
    repeat split; [rewrite length_app; lia|rewrite total_app; lia].
  - exists d, s. repeat split; try assumption; lia.
Qed.

Lemma costs_try_except : forall (A : Type) (m : M A) (h : exn -> M A) a b,
  costs m a b -> (forall e, costs (h e) 0 0) -> costs (try_except m h) a b.
Proof.
  intros A m h a b Hm Hh w. unfold try_except.
  destruct (Hm w) as (d & s & Hd & Hs & Hl & Ht).
  destruct (m w) as [[x|e] w1]; simpl in *.
  - exists d, s. auto.
  - destruct (Hh e w1) as (d' & s' & Hd' & Hs' & Hl' & Ht').
    exists (d ++ d'), (s ++ s'). rewrite Hd', Hs', Hd, Hs, !app_assoc.
    repeat split; [rewrite length_app; lia|rewrite total_app; lia].
Qed.

Lemma ticker_info_costs : forall symbol, costs (ticker_info P symbol) 0 0.
Proof.
  intros symbol w. exists [], []. simpl. rewrite !app_nil_r. repeat split; simpl; lia.
Qed.

Lemma fetch_data_costs : forall symbol period interval,
  costs (fetch_data P symbol period interval) 5 20.
Proof.
  intros symbol period interval w.
  destruct (fetch_data_shape P symbol period interval w) as (m & Hm & Hw).
  rewrite Hw. simpl. eexists. eexists. split; [reflexivity|]. split; [reflexivity|].
  split; [rewrite repeat_length; lia|]. apply policy_total. lia.
Qed.

Lemma get_cached_data_costs : forall c, costs (get_cached_data P c) 5 20.
Proof.
  intros c w.
  destruct (cache_get (make_key c) (cache w)) as [v0|] eqn:Hget.
  - rewrite (get_cached_data_hit P _ _ _ Hget). exists [], []. simpl.
    rewrite !app_nil_r. repeat split; simpl; lia.
  - rewrite (get_cached_data_miss P _ _ Hget).
    unfold get_cached_data_body, bind, lift.
    destruct (bind_get_cached_data c) as [[[symbol period] interval]|e].
    + destruct (fetch_data_costs symbol period interval w) as (d & s & Hd & Hs & Hl & Ht).
      exists d, s.
      destruct (fetch_data P symbol period interval w) as [[v|e] w1]; simpl in *; auto.
    + exists [], []. simpl. rewrite !app_nil_r. repeat split; simpl; lia.
Qed.

Lemma price_indicator_costs : forall symbol, costs (price_indicator P symbol) 5 20.
Proof.
  intros symbol. unfold price_indicator.
  apply (costs_weaken _ _ (0 + (5 + 0)) (0 + (20 + 0))); [|lia|lia].
  apply costs_bind; [apply ticker_info_costs|lia|intros info].
  apply costs_bind; [|lia|intros ?; apply costs_ret].
  destruct (contains info "regularMarketPrice").
  - apply (costs_weaken _ _ (0 + (0 + 0)) (0 + (0 + 0))); [|lia|lia].
    apply costs_bind; [apply costs_lift|lia|intros ?].
    apply costs_bind; [apply costs_lift|lia|intros ?]. apply costs_ret.
  - apply (costs_weaken _ _ (5 + (0 + (0 + 0))) (20 + (0 + (0 + 0)))); [|lia|lia].
    apply costs_bind; [apply get_cached_data_costs|lia|intros ?].
    apply costs_bind; [apply costs_lift|lia|intros ?].
    apply costs_bind; [apply costs_lift|lia|intros ?]. apply costs_ret.
Qed.

Lemma candlestick_chart_costs : forall symbol period interval d,
  costs (candlestick_chart P symbol period interval d) 5 20.
Proof.
  intros symbol period interval d. unfold candlestick_chart.
  apply (costs_weaken _ _ (5 + (0 + 0)) (20 + (0 + 0))); [|lia|lia].
  apply costs_bind; [apply get_cached_data_costs|lia|intros ?].
  apply costs_bind; [apply costs_lift|lia|intros ?]. apply costs_ret.
Qed.

Lemma prediction_chart_costs : forall symbol d,
  costs (prediction_chart P symbol d) 5 20.
Proof.
  intros symbol d. unfold prediction_chart.
  apply (costs_weaken _ _ (5 + (0 + (0 + (0 + 0)))) (20 + (0 + (0 + (0 + 0)))));
    [|lia|lia].
  apply costs_bind; [apply get_cached_data_costs|lia|intros ?].
  apply costs_bind; [apply costs_lift|lia|intros ?].
  apply costs_bind; [apply costs_lift|lia|intros ?].
  apply costs_bind; [apply costs_lift|lia|intros ?]. apply costs_ret.
Qed.

Lemma update_charts_costs : forall symbol d, costs (update_charts P symbol d) 15 60.
Proof.
  intros symbol d. unfold update_charts, update_charts_try.
  apply costs_try_except; [|intros ?; apply costs_ret].
  apply (costs_weaken _ _ (0 + (5 + (5 + (5 + 0)))) (0 + (20 + (20 + (20 + 0)))));
    [|lia|lia].
  apply costs_bind; [apply costs_lift|lia|intros ?].
  apply costs_bind; [apply price_indicator_costs|lia|intros ?].
  apply costs_bind; [apply candlestick_chart_costs|lia|intros ?].
  apply costs_bind; [apply prediction_chart_costs|lia|intros ?].
  apply costs_ret.
Qed.

Lemma startup_costs : costs (startup P) 15 60.
Proof.
  unfold startup.
  apply (costs_weaken _ _ (5 + (5 + (5 + 0))) (20 + (20 + (20 + 0)))); [|lia|lia].
  apply costs_bind; [apply candlestick_chart_costs|lia|intros ?].
  apply costs_bind; [apply price_indicator_costs|lia|intros ?].
  apply costs_bind; [apply prediction_chart_costs|lia|intros ?].
  apply costs_ret.
Qed.

End CostFacts.

Section EdgeFacts.

Variable P : Provider.

Lemma waits_firstn : forall k : nat,
  (k <= 4)%nat -> waits_up_to (wait_exponential 1 4 60) 1 k = firstn k [4; 4; 4; 8].
Proof.
  intros k Hk. destruct k as [|[|[|[|[|k]]]]]; try reflexivity. lia.
Qed.

Lemma iloc_empty : forall data i,
  rows data = [] ->
  iloc data i = Raise (IndexError "single positional indexer is out-of-bounds").
Proof.
  intros data i Hrows. unfold iloc. rewrite Hrows. simpl.
  destruct (i <? 0) eqn:Hi.
  - apply Z.ltb_lt in Hi. rewrite Z.add_0_r.
    destruct (Z.leb_spec 0 i); [lia|reflexivity].
  - destruct (Z.leb_spec 0 i); destruct (Z.ltb_spec i 0); try reflexivity; lia.
Qed.

Lemma iloc_first : forall data b rest, rows data = b :: rest -> iloc data 0 = Ok b.
Proof.
  intros data b rest Hrows. unfold iloc. rewrite Hrows. simpl List.length.
  change (0 <? 0) with false. cbv beta iota.
  destruct (Z.ltb_spec 0 (Z.of_nat (S (List.length rest)))); [reflexivity|lia].
Qed.

Lemma nth_error_last_bar : forall (l : list Bar) (b d : Bar),
  nth_error (b :: l) (List.length l) = Some (List.last (b :: l) d).
Proof.
  intros l. induction l as [|x l IH]; intros b d; [reflexivity|].
  simpl List.length. change (nth_error (b :: x :: l) (S (List.length l)))
    with (nth_error (x :: l) (List.length l)).
  rewrite (IH x d). reflexivity.
Qed.

Lemma iloc_last : forall data b rest,
  rows data = b :: rest -> iloc data (-1) = Ok (List.last (b :: rest) b).
Proof.
  intros data b rest Hrows. unfold iloc. rewrite Hrows.
  change (-1 <? 0) with true. cbv beta iota.
  set (n := Z.of_nat (List.length (b :: rest))).
  assert (Hn : n = Z.of_nat (List.length rest) + 1) by (unfold n; simpl List.length; lia).
  destruct (Z.leb_spec 0 (-1 + n)); [|lia].
  destruct (Z.ltb_spec (-1 + n) n); [|lia]. simpl andb. cbv iota.
  replace (Z.to_nat (-1 + n)) with (List.length rest) by lia.
  rewrite (nth_error_last_bar rest b b). reflexivity.
Qed.


(** What the two charts leave behind is what their one cache lookup left. *)
Lemma prediction_chart_world : forall symbol n w,
  snd (prediction_chart P symbol n w) =
  snd (get_cached_data P (keyword_call symbol "1y" "1d") w).
Proof.
  intros symbol n w. unfold prediction_chart, keyword_call, bind, lift, ret.
  destruct (get_cached_data P _ w) as [[data|e] w1]; [|reflexivity].
  destruct (index_at data (-1)); [|reflexivity].
  destruct (comprehension _ _); [|reflexivity].
  destruct (iloc data (-1)); reflexivity.
Qed.

Lemma cache_store_absent : forall n key v c k,
  cache_get k c = None -> k <> key -> cache_get k (cache_store n key v c) = None.
Proof.
  intros n key v c k Hk Hne. unfold cache_store.
  destruct n as [|n]; [exact Hk|].
  destruct (cache_get key c); [exact Hk|].
  destruct (S n <=? List.length c)%nat; simpl;
    (destruct (CacheKey_eq_dec k key); [contradiction|]); [|exact Hk].
  apply cache_get_None_iff. apply cache_get_None_iff in Hk.
  intros HIn. apply Hk. rewrite removelast_map_fst in HIn.
  apply removelast_incl. exact HIn.
Qed.

(** A call brings no key into the cache but its own. *)
Lemma get_cached_data_other_key_absent : forall c w k,
  cache_get k (cache w) = None -> k <> make_key c ->
  cache_get k (cache (snd (get_cached_data P c w))) = None.
Proof.
  intros c w k Hk Hne.
  destruct (cache_get (make_key c) (cache w)) as [v0|] eqn:Hget.
  - rewrite (get_cached_data_hit P _ _ _ Hget). simpl.
    destruct (CacheKey_eq_dec k (make_key c)); [contradiction|].
    rewrite cache_get_remove_other by assumption. exact Hk.
  - rewrite (get_cached_data_miss P _ _ Hget).
    pose proof (get_cached_data_body_keeps_cache P c w) as Hkeep.
    destruct (get_cached_data_body P c w) as [[v|e] w1]; simpl in *.
    + rewrite Hkeep. apply cache_store_absent; assumption.
    + rewrite Hkeep. exact Hk.
Qed.

(** A miss of a well-formed call asks the provider at least once. *)
Lemma get_cached_data_miss_downloads : forall c symbol period interval w,
  bind_get_cached_data c = Ok (symbol, period, interval) ->
  cache_get (make_key c) (cache w) = None ->
  exists m, (1 <= m <= 5)%nat /\
    downloads (snd (get_cached_data P c w)) =
      downloads w ++ repeat (symbol, period, interval) m.
Proof.
  intros c symbol period interval w Hb Hmiss.
  rewrite (get_cached_data_miss P _ _ Hmiss).
  rewrite (get_cached_data_body_bound P _ _ _ _ _ Hb).
  destruct (fetch_data_shape P symbol period interval w) as [m [Hm Hw]].
  exists m. split; [exact Hm|].
  destruct (fetch_data P symbol period interval w) as [[v|e] w1];
    simpl in *; rewrite Hw; reflexivity.
Qed.

(** A key that is in the cache stays there, with its frame, through a hit
    and through a miss that finds room. *)
Lemma get_cached_data_keeps_entry : forall c w k v,
  cache_get k (cache w) = Some v ->
  (List.length (cache w) < 128)%nat \/ cache_get (make_key c) (cache w) <> None ->
  cache_get k (cache (snd (get_cached_data P c w))) = Some v.
Proof.
  intros c w k v Hk Hcase.
  destruct (cache_get (make_key c) (cache w)) as [v0|] eqn:Hget.
  - rewrite (get_cached_data_hit P _ _ _ Hget). simpl.
    destruct (CacheKey_eq_dec k (make_key c)) as [->|Hne]; [congruence|].
    rewrite cache_get_remove_other by assumption. exact Hk.
  - destruct Hcase as [Hroom|Hres]; [|congruence].
    rewrite (get_cached_data_miss P _ _ Hget).
    pose proof (get_cached_data_body_keeps_cache P c w) as Hkeep.
    destruct (get_cached_data_body P c w) as [[v1|e] w1]; simpl in *.
    + rewrite Hkeep. rewrite cache_store_room by assumption. simpl.
      destruct (CacheKey_eq_dec k (make_key c)) as [->|Hne]; [congruence|exact Hk].
    + rewrite Hkeep. exact Hk.
Qed.

Lemma get_cached_data_raise_keeps_cache : forall c w e w1,
  get_cached_data P c w = (Raise e, w1) -> cache w1 = cache w.
Proof.
  intros c w e w1 H.
  destruct (cache_get (make_key c) (cache w)) as [v0|] eqn:Hget.
  - rewrite (get_cached_data_hit P _ _ _ Hget) in H. discriminate.
  - rewrite (get_cached_data_miss P _ _ Hget) in H.
    pose proof (get_cached_data_body_keeps_cache P c w) as Hkeep.
    destruct (get_cached_data_body P c w) as [[v1|e1] w2]; [discriminate|].
    injection H as <- <-. exact Hkeep.
Qed.

(** The second of two equal calls, the first of which returned. *)
Lemma get_cached_data_again : forall c w v w1,
  get_cached_data P c w = (Ok v, w1) ->
  get_cached_data P c w1 =
    (Ok v, set_cache w1 ((make_key c, v) :: cache_remove (make_key c) (cache w1))).
Proof.
  intros c w v w1 Hrun.
  destruct (get_cached_data_front P _ _ _ _ Hrun) as [rest Hfront].
  apply get_cached_data_hit. rewrite Hfront. simpl.
  destruct (CacheKey_eq_dec (make_key c) (make_key c)); [reflexivity|congruence].
Qed.

End EdgeFacts.

(** * Further theorems *)

(** X1.  [fetch_data] returns the first answer the provider gives within
    five attempts: after [k] failures and an answer it has made [k + 1]
    downloads and slept the first [k] of the waits 4, 4, 4, 8; an answer to
    the first attempt costs no sleep at all. *)
Theorem fetch_data_returns_first_answer : forall (P : Provider)
    (symbol period interval : string) (w : World) (k : nat) (es : nat -> exn)
    (df : DataFrame),
  (k < 5)%nat ->
  (forall j, (j < k)%nat ->
     yf_download P (List.length (downloads w) + j) (symbol, period, interval) = Raise (es j)) ->
  yf_download P (List.length (downloads w) + k) (symbol, period, interval) = Ok df ->
  fetch_data P symbol period interval w =
    (Ok df,
     mkWorld (cache w) (downloads w ++ repeat (symbol, period, interval) (S k))
       (sleeps w ++ firstn k [4; 4; 4; 8]) (info_calls w)).
Proof.
  intros P symbol period interval w k es df Hk Hfail Hok.
  rewrite (fetch_data_succeeds_at P symbol period interval w k es df Hk Hfail Hok).
  rewrite waits_firstn by lia. reflexivity.
Qed.

(** An answer at the first attempt, and one at the third. *)
Lemma fetch_data_returns_first_answer_witness :
  fetch_data steady_provider "msft" "1y" "1d" init_world =
    (Ok sample_frame, mkWorld [] [("msft", "1y", "1d")] [] []) /\
  fetch_data slow_provider "msft" "1y" "1d"
    (mkWorld [] [("a", "1y", "1d"); ("a", "1y", "1d")] [4] []) =
    (Ok sample_frame,
     mkWorld [] ([("a", "1y", "1d"); ("a", "1y", "1d")] ++ repeat ("msft", "1y", "1d") 3)
       [4; 4; 4] []).
Proof.
  split.
  - apply (fetch_data_returns_first_answer steady_provider "msft" "1y" "1d" init_world
             0 (fun _ => ProviderError "timed out") sample_frame).
    + lia.
    + intros j Hj. lia.
    + reflexivity.
  - apply (fetch_data_returns_first_answer slow_provider "msft" "1y" "1d"
             (mkWorld [] [("a", "1y", "1d"); ("a", "1y", "1d")] [4] [])
             2 (fun _ => ProviderError "timed out") sample_frame).
    + lia.
    + intros j Hj. destruct j as [|[|j]]; try reflexivity. lia.
    + reflexivity.
Defined.

(** X2.  Whatever the provider does, one [fetch_data] makes between one
    and five downloads of its own query, sleeps once between two attempts
    and never after the last, sleeps at most 20 seconds in all, and leaves
    the cache and the log of snapshot lookups as they were. *)
Theorem fetch_data_worst_case : forall (P : Provider) (symbol period interval : string)
    (w : World),
  exists (m : nat) (s : list Z),
    (1 <= m <= 5)%nat /\
    downloads (snd (fetch_data P symbol period interval w)) =
      downloads w ++ repeat (symbol, period, interval) m /\
    sleeps (snd (fetch_data P symbol period interval w)) = sleeps w ++ s /\
    List.length s = (m - 1)%nat /\
    0 <= total s <= 20 /\
    cache (snd (fetch_data P symbol period interval w)) = cache w /\
    info_calls (snd (fetch_data P symbol period interval w)) = info_calls w.
Proof.
  intros P symbol period interval w.
  destruct (fetch_data_shape P symbol period interval w) as (m & Hm & Hw).
  exists m, (waits_up_to (wait_exponential 1 4 60) 1 (m - 1)).
  rewrite Hw. simpl. repeat split; try lia.
  - unfold waits_up_to. rewrite length_map, length_seq. reflexivity.
  - apply policy_total. lia.
  - apply policy_total. lia.
Qed.

(** X3.  In every world of the process, a frame the cache holds for a call
    is what the provider answered to a download, recorded in the log, of
    the query that call binds to. *)
Theorem cached_frames_are_provider_answers : forall (P : Provider) (w : World)
    (c : Call) (v : DataFrame),
  reachable P w ->
  cache_get (make_key c) (cache w) = Some v ->
  exists q n,
    bind_get_cached_data c = Ok q /\
    nth_error (downloads w) n = Some q /\
    yf_download P n q = Ok v.
Proof.
  intros P w c v Hreach Hget.
  destruct (reachable_answered P w Hreach _ _ (cache_get_Some_In_pair _ _ _ Hget))
    as (c' & q & n & Hk & Hb & Hn & Hv).
  apply make_key_inj in Hk. subst c'. exists q, n. auto.
Qed.

(** After the module's start-up both entries answer ("aapl", "1y", "1d"). *)
Lemma cached_frames_are_provider_answers_witness :
  exists q n,
    bind_get_cached_data (keyword_call "aapl" "1y" "1d") = Ok q /\
    nth_error (downloads (run_op steady_provider (OpStartup) init_world)) n = Some q /\
    yf_download steady_provider n q = Ok sample_frame.
Proof.
  apply (cached_frames_are_provider_answers steady_provider
           (run_op steady_provider OpStartup init_world)
           (keyword_call "aapl" "1y" "1d") sample_frame).
  - apply reachable_step. apply reachable_init.
  - reflexivity.
Defined.

(** X4.  A call of [get_cached_data] whose arguments do not bind to
    [symbol], [period] and [interval] raises the [TypeError] of the
    binding at once: no download, no retry, no sleep, and the world is as
    it was. *)
Theorem ill_formed_call_raises : forall (P : Provider) (w : World) (c : Call) (e : exn),
  reachable P w ->
  bind_get_cached_data c = Raise e ->
  get_cached_data P c w = (Raise e, w).
Proof.
  intros P w c e Hreach Hb.
  destruct (cache_get (make_key c) (cache w)) as [v|] eqn:Hget.
  - destruct (reachable_answered P w Hreach _ _ (cache_get_Some_In_pair _ _ _ Hget))
      as (c' & q & n & Hk & Hb' & _).
    apply make_key_inj in Hk. subst c'. congruence.
  - rewrite (get_cached_data_miss P _ _ Hget).
    unfold get_cached_data_body, bind, lift. rewrite Hb. reflexivity.
Qed.

(** One argument instead of three; a keyword given twice over. *)
Lemma ill_formed_call_raises_witness :
  get_cached_data steady_provider (mkCall ["aapl"] []) (filled_world 3) =
    (Raise (TypeError "missing required argument"), filled_world 3) /\
  get_cached_data steady_provider
    (mkCall ["aapl"; "1y"; "1d"] [("period", "1y")]) (filled_world 3) =
    (Raise (TypeError "unexpected or repeated keyword argument"), filled_world 3).
Proof.
  split.
  - apply ill_formed_call_raises; [apply filled_world_reachable|reflexivity].
  - apply ill_formed_call_raises; [apply filled_world_reachable|reflexivity].
Defined.

(** X5.  Entries leave the cache only through a miss on a full cache: a
    key that is resident keeps its frame through a call that hits and
    through a call that misses while fewer than 128 keys are held; and a
    call that raises leaves the whole cache as it was. *)
Theorem only_a_full_miss_evicts : forall (P : Provider) (c : Call) (w : World),
  (forall k v,
     cache_get k (cache w) = Some v ->
     (List.length (cache w) < 128)%nat \/ cache_get (make_key c) (cache w) <> None ->
     cache_get k (cache (snd (get_cached_data P c w))) = Some v) /\
  (forall e w1, get_cached_data P c w = (Raise e, w1) -> cache w1 = cache w).
Proof.
  intros P c w. split.
  - intros k v Hk Hcase. apply get_cached_data_keeps_entry; assumption.
  - intros e w1 H. apply (get_cached_data_raise_keeps_cache P c w e w1 H).
Qed.

(** With 127 keys held a new key drops nothing; with 128 held a hit drops
    nothing; a miss that fails on a full cache drops nothing. *)
Lemma only_a_full_miss_evicts_witness :
  cache_get (make_key (positional_call "1" "1y" "1d"))
    (cache (snd (get_cached_data steady_provider (positional_call "new" "1y" "1d")
                   (filled_world 127)))) = Some sample_frame /\
  cache_get (make_key (positional_call "1" "1y" "1d"))
    (cache (snd (get_cached_data steady_provider (positional_call "77" "1y" "1d")
                   (filled_world 128)))) = Some sample_frame /\
  cache (snd (get_cached_data failing_provider (positional_call "new" "1y" "1d")
                (filled_world 128))) = cache (filled_world 128).
Proof.
  split; [|split].
  - apply (only_a_full_miss_evicts steady_provider (positional_call "new" "1y" "1d")
             (filled_world 127)).
    + vm_compute. reflexivity.
    + left. vm_compute. lia.
  - apply (only_a_full_miss_evicts steady_provider (positional_call "77" "1y" "1d")
             (filled_world 128)).
    + vm_compute. reflexivity.
    + right. vm_compute. discriminate.
  - apply (proj2 (only_a_full_miss_evicts failing_provider
                    (positional_call "new" "1y" "1d") (filled_world 128))
             (RetryError (ProviderError "timed out"))).
    vm_compute. reflexivity.
Defined.



(** X7.  A horizon of zero or less is not an error: the chart is drawn
    with an empty trace of predicted prices, and its title carries the
    number as it was given. *)
Theorem prediction_chart_nonpositive_horizon : forall (P : Provider) (symbol : string)
    (n : Z) (w w1 : World) (data : DataFrame) (last : Bar),
  n <= 0 ->
  get_cached_data P (keyword_call symbol "1y" "1d") w = (Ok data, w1) ->
  iloc data (-1) = Ok last ->
  prediction_chart P symbol n w =
    (Ok (mkFigure
           [(Scatter (map Date (rows data)) (map Close (rows data)) "lines"
               (Some "Actual Prices") (Some "blue") true, None);
            (Scatter [] [] "lines" (Some "Predicted Prices") (Some "green") true, None)]
           [("title", (upper symbol ++ " Price Prediction for Next "
                         ++ str_of_Z n ++ " Days")%string);
            ("xaxis_title", "Date");
            ("yaxis_title", "Price");
            ("plot_bgcolor", "#111111");
            ("paper_bgcolor", "#111111");
            ("font.color", "#ffffff")]), w1).
Proof.
  intros P symbol n w w1 data last Hn Hget Hlast.
  unfold prediction_chart, bind. unfold keyword_call in Hget. rewrite Hget.
  unfold lift. rewrite (index_at_iloc _ _ _ Hlast).
  assert (Hr : range 1 (n + 1) = []).
  { unfold range. replace (Z.to_nat (n + 1 - 1)) with 0%nat by lia. reflexivity. }
  rewrite Hr. simpl comprehension. cbv beta iota. rewrite Hlast. reflexivity.
Qed.

(** Horizon -3 on the sample data. *)
Lemma prediction_chart_nonpositive_horizon_witness :
  exists actual layout w1,
    prediction_chart steady_provider "aapl" (-3) init_world =
      (Ok (mkFigure
             [actual;
              (Scatter [] [] "lines" (Some "Predicted Prices") (Some "green") true, None)]
             (("title", "AAPL Price Prediction for Next -3 Days") :: layout)), w1).
Proof.
  eexists. eexists. eexists.
  rewrite (prediction_chart_nonpositive_horizon steady_provider "aapl" (-3) init_world
             (snd (get_cached_data steady_provider (keyword_call "aapl" "1y" "1d") init_world))
             sample_frame (mkBar 1700086400000000000 99 101 98.5 100 1200)).
  - reflexivity.
  - lia.
  - reflexivity.
  - reflexivity.
Defined.



(** X9.  With a quote snapshot that has 'regularMarketPrice', the
    indicator shows that price against 'regularMarketOpen' under the
    upper-cased symbol; when 'regularMarketOpen' is missing it raises
    [KeyError].  Either way the cache and the download log are untouched. *)
Theorem price_indicator_from_snapshot : forall (P : Provider) (symbol : string)
    (w : World) (info : Info) (price : float),
  yf_ticker_info P (List.length (info_calls w)) symbol = Ok info ->
  assoc "regularMarketPrice" info = Some price ->
  (forall open,
     assoc "regularMarketOpen" info = Some open ->
     price_indicator P symbol w =
       (Ok (mkFigure
              [(Indicator (upper symbol ++ " Current Price")%string open "number+delta"
                  price "$" ".2f", None)]
              [("plot_bgcolor", "#111111"); ("paper_bgcolor", "#111111");
               ("font.color", "#ffffff")]),
        mkWorld (cache w) (downloads w) (sleeps w) (info_calls w ++ [symbol]))) /\
  (assoc "regularMarketOpen" info = None ->
     price_indicator P symbol w =
       (Raise (KeyError "regularMarketOpen"),
        mkWorld (cache w) (downloads w) (sleeps w) (info_calls w ++ [symbol]))).
Proof.
  intros P symbol w info price Hinfo Hprice.
  assert (Hc : contains info "regularMarketPrice" = true)
    by (unfold contains; rewrite Hprice; reflexivity).
  split.
  - intros open Hopen. unfold price_indicator, bind, ticker_info.
    rewrite Hinfo, Hc. unfold lift, getitem. rewrite Hopen, Hprice. reflexivity.
  - intros Hopen. unfold price_indicator, bind, ticker_info.
    rewrite Hinfo, Hc. unfold lift, getitem. rewrite Hopen. reflexivity.
Qed.

(** A full snapshot, and one that has the price but not the open. *)
Lemma price_indicator_from_snapshot_witness :
  fst (price_indicator steady_provider "aapl" init_world) =
    Ok (mkFigure
          [(Indicator "AAPL Current Price" 99 "number+delta" 100.5 "$" ".2f", None)]
          [("plot_bgcolor", "#111111"); ("paper_bgcolor", "#111111");
           ("font.color", "#ffffff")]) /\
  fst (price_indicator
         (mkProvider (fun _ _ => Ok sample_frame)
            (fun _ _ => Ok [("regularMarketPrice", 100.5%float)]))
         "aapl" init_world) = Raise (KeyError "regularMarketOpen").
Proof.
  split.
  - destruct (price_indicator_from_snapshot steady_provider "aapl" init_world
                sample_info 100.5 eq_refl eq_refl) as [Hboth _].
    rewrite (Hboth 99%float eq_refl). reflexivity.
  - destruct (price_indicator_from_snapshot
                (mkProvider (fun _ _ => Ok sample_frame)
                   (fun _ _ => Ok [("regularMarketPrice", 100.5%float)]))
                "aapl" init_world [("regularMarketPrice", 100.5%float)] 100.5
                eq_refl eq_refl) as [_ Hmissing].
    rewrite (Hmissing eq_refl). reflexivity.
Defined.

(** X10.  With a quote snapshot that has no 'regularMarketPrice', the
    indicator takes its prices from the cached daily frame of the symbol:
    the open of the first bar is the reference and the close of the last
    bar the value; when that frame is empty it raises [IndexError]. *)
Theorem price_indicator_from_bars : forall (P : Provider) (symbol : string)
    (w w1 : World) (info : Info) (data : DataFrame),
  yf_ticker_info P (List.length (info_calls w)) symbol = Ok info ->
  assoc "regularMarketPrice" info = None ->
  get_cached_data P (keyword_call symbol "1d" "1d")
    (mkWorld (cache w) (downloads w) (sleeps w) (info_calls w ++ [symbol])) = (Ok data, w1) ->
  (rows data = [] ->
     price_indicator P symbol w =
       (Raise (IndexError "single positional indexer is out-of-bounds"), w1)) /\
  (forall first rest,
     rows data = first :: rest ->
     price_indicator P symbol w =
       (Ok (mkFigure
              [(Indicator (upper symbol ++ " Current Price")%string (Open first)
                  "number+delta" (Close (List.last (first :: rest) first)) "$" ".2f", None)]
              [("plot_bgcolor", "#111111"); ("paper_bgcolor", "#111111");
               ("font.color", "#ffffff")]), w1)).
Proof.
  intros P symbol w w1 info data Hinfo Hprice Hget.
  assert (Hc : contains info "regularMarketPrice" = false)
    by (unfold contains; rewrite Hprice; reflexivity).
  unfold keyword_call in Hget. split.
  - intros Hrows. unfold price_indicator, bind at 1 2. unfold ticker_info.
    rewrite Hinfo, Hc. unfold bind at 1. rewrite Hget.
    unfold lift. rewrite iloc_empty by assumption. reflexivity.
  - intros first rest Hrows. unfold price_indicator, bind at 1 2. unfold ticker_info.
    rewrite Hinfo, Hc. unfold bind at 1. rewrite Hget.
    unfold bind, lift. rewrite (iloc_first _ _ _ Hrows), (iloc_last _ _ _ Hrows).
    reflexivity.
Qed.

(** Sample bars without a quote; no bars and no quote. *)
Lemma price_indicator_from_bars_witness :
  fst (price_indicator no_quote_provider "aapl" init_world) =
    Ok (mkFigure
          [(Indicator "AAPL Current Price" 98 "number+delta" 100 "$" ".2f", None)]
          [("plot_bgcolor", "#111111"); ("paper_bgcolor", "#111111");
           ("font.color", "#ffffff")]) /\
  fst (price_indicator unknown_symbol_provider "zzzz" init_world) =
    Raise (IndexError "single positional indexer is out-of-bounds").
Proof.
  split.
  - destruct (price_indicator_from_bars no_quote_provider "aapl" init_world
                (snd (get_cached_data no_quote_provider (keyword_call "aapl" "1d" "1d")
                        (mkWorld [] [] [] ["aapl"])))
                [] sample_frame eq_refl eq_refl eq_refl) as [_ Hbars].
    rewrite (Hbars _ _ eq_refl). reflexivity.
  - destruct (price_indicator_from_bars unknown_symbol_provider "zzzz" init_world
                (snd (get_cached_data unknown_symbol_provider (keyword_call "zzzz" "1d" "1d")
                        (mkWorld [] [] [] ["zzzz"])))
                [] empty_frame eq_refl eq_refl eq_refl) as [Hempty _].
    rewrite (Hempty eq_refl). reflexivity.
Defined.

(** X11.  A chart that was built once is built again from the cache: the
    same call of [candlestick_chart] (whatever its [prediction_days]) or of
    [prediction_chart] in the world the first one left returns the same
    figure without a download and without a sleep, whatever the provider
    would answer by then. *)
Theorem repeated_chart_is_served_from_cache : forall (P : Provider)
    (symbol period interval : string) (d d' n : Z) (w : World),
  (forall fig w1,
     candlestick_chart P symbol period interval d w = (Ok fig, w1) ->
     exists w2,
       candlestick_chart P symbol period interval d' w1 = (Ok fig, w2) /\
       downloads w2 = downloads w1 /\ sleeps w2 = sleeps w1) /\
  (forall fig w1,
     prediction_chart P symbol n w = (Ok fig, w1) ->
     exists w2,
       prediction_chart P symbol n w1 = (Ok fig, w2) /\
       downloads w2 = downloads w1 /\ sleeps w2 = sleeps w1).
Proof.
  intros P symbol period interval d d' n w. split.
  - intros fig w1 H. unfold candlestick_chart, bind in H.
    destruct (get_cached_data P (mkCall [symbol; period; interval] []) w)
      as [[data|e] w0] eqn:Hget; [|discriminate].
    unfold lift in H.
    destruct (column_Date data) as [dates|e] eqn:Hdates; [|discriminate].
    unfold ret in H. injection H as <- <-.
    pose proof (get_cached_data_again P _ _ _ _ Hget) as Hagain.
    eexists. split.
    + unfold candlestick_chart, bind. rewrite Hagain. unfold lift.
      rewrite Hdates. reflexivity.
    + split; reflexivity.
  - intros fig w1 H. unfold prediction_chart, bind in H.
    destruct (get_cached_data P (mkCall [symbol] [("period", "1y"); ("interval", "1d")]) w)
      as [[data|e] w0] eqn:Hget; [|discriminate].
    unfold lift in H.
    destruct (index_at data (-1)) as [current_date|e] eqn:Hidx; [|discriminate].
    destruct (comprehension _ (range 1 (n + 1))) as [dates|e] eqn:Hdates; [|discriminate].
    destruct (iloc data (-1)) as [last|e] eqn:Hlast; [|discriminate].
    unfold ret in H. injection H as <- <-.
    pose proof (get_cached_data_again P _ _ _ _ Hget) as Hagain.
    eexists. split.
    + unfold prediction_chart, bind. rewrite Hagain. unfold lift.
      rewrite Hidx, Hdates, Hlast. reflexivity.
    + split; reflexivity.
Qed.

(** A provider whose second answer would be an empty frame: the second
    chart still shows the first answer. *)
Lemma repeated_chart_is_served_from_cache_witness :
  let moving := mkProvider
                  (fun n _ => match n with O => Ok sample_frame | S _ => Ok empty_frame end)
                  (fun _ _ => Ok sample_info) in
  exists fig w1 w2,
    candlestick_chart moving "aapl" "1y" "1d" 10 init_world = (Ok fig, w1) /\
    candlestick_chart moving "aapl" "1y" "1d" 30 w1 = (Ok fig, w2) /\
    downloads w2 = [("aapl", "1y", "1d")].
Proof.
  intros moving.
  destruct (repeated_chart_is_served_from_cache moving "aapl" "1y" "1d" 10 30 0 init_world)
    as [Hcandle _].
  destruct (Hcandle
              (match fst (candlestick_chart moving "aapl" "1y" "1d" 10 init_world) with
               | Ok fig => fig
               | Raise _ => go_Figure
               end)
              (snd (candlestick_chart moving "aapl" "1y" "1d" 10 init_world)))
    as (w2 & Hrun & Hlog & _).
  - reflexivity.
  - eexists. eexists. exists w2. split; [reflexivity|]. split; [exact Hrun|].
    rewrite Hlog. reflexivity.
Defined.

(** X12.  One refresh of the page, and the start-up of the module, make at
    most 15 downloads and sleep at most 60 seconds, and only append to the
    logs: three cache lookups of at most five attempts and 20 seconds each.
    The bound is reached by a provider that answers every fifth download
    only. *)
Theorem refresh_cost_bound : forall (P : Provider) (symbol : string)
    (prediction_days : pyval) (w : World),
  (exists d s,
     downloads (snd (update_charts P symbol prediction_days w)) = downloads w ++ d /\
     sleeps (snd (update_charts P symbol prediction_days w)) = sleeps w ++ s /\
     (List.length d <= 15)%nat /\ total s <= 60) /\
  (exists d s,
     downloads (snd (startup P w)) = downloads w ++ d /\
     sleeps (snd (startup P w)) = sleeps w ++ s /\
     (List.length d <= 15)%nat /\ total s <= 60) /\
  List.length (downloads (snd (update_charts slow_provider "aapl" (PyInt 3) init_world)))
    = 15%nat /\
  total (sleeps (snd (update_charts slow_provider "aapl" (PyInt 3) init_world))) = 60.
Proof.
  intros P symbol prediction_days w. split; [|split; [|split]].
  - apply update_charts_costs.
  - apply startup_costs.
  - vm_compute. reflexivity.
  - vm_compute. reflexivity.
Qed.

Lemma cache_get_front : forall k v rest, cache_get k ((k, v) :: rest) = Some v.
Proof.
  intros k v rest. simpl.
  destruct (CacheKey_eq_dec k k); [reflexivity|congruence].
Qed.

(** X13.  [prediction_chart] does not find what [candlestick_chart]
    cached.  After [candlestick_chart(symbol, "1y", "1d")] has returned,
    its entry is resident, the key [prediction_chart] asks for is still
    absent unless it was there before, and [prediction_chart] downloads
    ("symbol", "1y", "1d") again, at least once. *)
Theorem prediction_chart_misses_candlestick_entry : forall (P : Provider)
    (symbol : string) (d n : Z) (w w1 : World) (fig : Figure),
  cache_get (make_key (keyword_call symbol "1y" "1d")) (cache w) = None ->
  candlestick_chart P symbol "1y" "1d" d w = (Ok fig, w1) ->
  cache_get (make_key (positional_call symbol "1y" "1d")) (cache w1) <> None /\
  cache_get (make_key (keyword_call symbol "1y" "1d")) (cache w1) = None /\
  exists m, (1 <= m <= 5)%nat /\
    downloads (snd (prediction_chart P symbol n w1)) =
      downloads w1 ++ repeat (symbol, "1y", "1d") m.
Proof.
  intros P symbol d n w w1 fig Habsent Hrun.
  unfold candlestick_chart, bind in Hrun.
  destruct (get_cached_data P (mkCall [symbol; "1y"; "1d"] []) w)
    as [[data|e] w0] eqn:Hget; [|discriminate].
  unfold lift in Hrun.
  destruct (column_Date data) as [dates|e]; [|discriminate].
  unfold ret in Hrun. injection Hrun as _ <-.
  assert (Hstill : cache_get (make_key (keyword_call symbol "1y" "1d")) (cache w0) = None).
  { pose proof (get_cached_data_other_key_absent P (mkCall [symbol; "1y"; "1d"] []) w
                  (make_key (keyword_call symbol "1y" "1d")) Habsent) as H.
    rewrite Hget in H. apply H. unfold make_key, keyword_call. simpl.
    intros E. discriminate E. }
  split; [|split; [exact Hstill|]].
  - destruct (get_cached_data_front P _ _ _ _ Hget) as [rest Hfront].
    unfold positional_call. rewrite Hfront. rewrite cache_get_front. discriminate.
  - rewrite prediction_chart_world.
    apply get_cached_data_miss_downloads; [reflexivity|exact Hstill].
Qed.

(** Any symbol on a fresh process: two downloads of the same query. *)
Lemma prediction_chart_misses_candlestick_entry_witness :
  let w1 := snd (candlestick_chart steady_provider "msft" "1y" "1d" 10 init_world) in
  cache_get (make_key (positional_call "msft" "1y" "1d")) (cache w1) <> None /\
  exists m, (1 <= m <= 5)%nat /\
    downloads (snd (prediction_chart steady_provider "msft" 10 w1)) =
      [("msft", "1y", "1d")] ++ repeat ("msft", "1y", "1d") m.
Proof.
  intros w1.
  destruct (prediction_chart_misses_candlestick_entry steady_provider "msft" 10 10
              init_world w1
              (match fst (candlestick_chart steady_provider "msft" "1y" "1d" 10 init_world) with
               | Ok fig => fig
               | Raise _ => go_Figure
               end))
    as (Hres & _ & m & Hm & Hlog).
  - reflexivity.
  - reflexivity.
  - split; [exact Hres|]. exists m. split; [exact Hm|exact Hlog].
Defined.

(** X14.  The wait of the retry policy after any attempt is between 4 and
    60 seconds and never decreases from one attempt to the next; it is 4
    seconds after each of the first three attempts and 60 seconds from the
    seventh on. *)
Theorem wait_exponential_bounds : forall a b : Z,
  1 <= a -> a <= b ->
  4 <= wait_exponential 1 4 60 a <= 60 /\
  wait_exponential 1 4 60 a <= wait_exponential 1 4 60 b /\
  (a <= 3 -> wait_exponential 1 4 60 a = 4) /\
  (7 <= a -> wait_exponential 1 4 60 a = 60).
Proof.
  intros a b Ha Hab. unfold wait_exponential.
  assert (Hmono : 2 ^ (a - 1) <= 2 ^ (b - 1)) by (apply Z.pow_le_mono_r; lia).
  split; [lia|]. split; [lia|]. split.
  - intros H3. assert (2 ^ (a - 1) <= 2 ^ 2) by (apply Z.pow_le_mono_r; lia).
    change (2 ^ 2) with 4 in *. lia.
  - intros H7. assert (2 ^ 6 <= 2 ^ (a - 1)) by (apply Z.pow_le_mono_r; lia).
    change (2 ^ 6) with 64 in *. lia.
Qed.

(** The waits after the second and after the ninth attempt. *)
Lemma wait_exponential_bounds_witness :
  wait_exponential 1 4 60 2 = 4 /\
  wait_exponential 1 4 60 9 = 60 /\
  wait_exponential 1 4 60 2 <= wait_exponential 1 4 60 9.
Proof.
  destruct (wait_exponential_bounds 2 9) as (_ & Hmono & Hlow & _); [lia|lia|].
  destruct (wait_exponential_bounds 9 9) as (_ & _ & _ & Hhigh); [lia|lia|].
  split; [apply Hlow; lia|]. split; [apply Hhigh; lia|exact Hmono].
Defined.

(** X15.  The start-up of the module is not inside any [try]: when the
    provider fails the first five downloads of a fresh process, loading
    the module raises the [RetryError] of [candlestick_chart]'s fetch after
    five downloads and 20 seconds of sleep, before any snapshot lookup, and
    leaves the cache empty. *)
Theorem startup_fails_when_provider_is_down : forall (P : Provider) (es : nat -> exn),
  (forall j, (j < 5)%nat -> yf_download P j ("aapl", "1y", "1d") = Raise (es j)) ->
  startup P init_world =
    (Raise (RetryError (es 4%nat)),
     mkWorld [] (repeat ("aapl", "1y", "1d") 5) [4; 4; 4; 8] []).
Proof.
  intros P es Hfail. unfold startup, candlestick_chart, bind.
  rewrite (get_cached_data_all_fail P (mkCall ["aapl"; "1y"; "1d"] [])
             "aapl" "1y" "1d" init_world es); [reflexivity|reflexivity|reflexivity|].
  intros j Hj. simpl. apply Hfail. exact Hj.
Qed.

(** A provider that never answers. *)
Lemma startup_fails_when_provider_is_down_witness :
  startup failing_provider init_world =
    (Raise (RetryError (ProviderError "timed out")),
     mkWorld [] (repeat ("aapl", "1y", "1d") 5) [4; 4; 4; 8] []).
Proof.
  apply (startup_fails_when_provider_is_down failing_provider
           (fun _ => ProviderError "timed out")).
  intros j Hj. reflexivity.
Defined.
